(** * The Firestore modular API: reads, writes and listeners

    A shallow embedding of [packages/firestore/exp/src/api/reference.ts].
    Every entry point of that file is a synchronous prefix (argument
    checks, allocation of a [Deferred], one [enqueueAndForget]) followed by
    a promise continuation.  The prefix is embedded as a computation in a
    state-and-failure monad over the client instance; the continuation is
    embedded as a function on the value the deferred is settled with.

    The model has one client instance: a reference's [firestore] is that
    instance, and it is passed explicitly as the monad's state. *)

From Stdlib Require Import ZArith Bool Lia.
From stdpp Require Import base option list strings pretty gmap.

Local Open Scope Z_scope.
Local Open Scope string_scope.
Local Open Scope list_scope.

(** ** Values crossing the API boundary *)

(** A document key is the resource path of the document. *)
Abbreviation ResourcePath := (list string) (only parsing).
Abbreviation DocumentKey := (list string) (only parsing).

(** [FieldPath]: the segments of a field path object. *)
Record FieldPath := mkFieldPath { segments : list string }.

(** The values of type [unknown] that reach the write entry points. *)
#[warnings="-register-all"]
Inductive JsValue :=
| JUndefined
| JNull
| JBool (b : bool)
| JNum (n : Z)
| JStr (s : string)
| JFieldPath (p : FieldPath)
| JObj (props : list (string * JsValue)).

(** A user function, known by its identity. *)
Definition Callback := nat.

(** The objects that reach [onSnapshot] and [onSnapshotsInSync]: any of the
    properties may be missing. *)
Module JsObject.
Record t := mk {
  includeMetadataChanges : option bool;
  next : option Callback;
  error : option Callback;
  complete : option Callback
}.
End JsObject.

(** An element of [...args: unknown[]]. *)
Inductive Arg :=
| ArgUndefined
| ArgFunction (f : Callback)
| ArgObject (o : JsObject.t).

(** [typeof a === 'object'] *)
Definition typeof_object (a : Arg) : bool :=
  match a with ArgObject _ => true | _ => false end.

(** JavaScript truthiness of an argument: [if (args[currArg])]. *)
Definition truthy (a : Arg) : bool :=
  match a with ArgUndefined => false | _ => true end.

(** [args[i]]: reading past the end gives [undefined]. *)
Definition arg_get (args : list Arg) (i : nat) : Arg :=
  default ArgUndefined (args !! i).

(** [args[i] = v]: writing past the end extends the array with holes. *)
Definition arg_set (args : list Arg) (i : nat) (v : Arg) : list Arg :=
  if decide (i < length args)%nat then <[i:=v]> args
  else args ++ replicate (i - length args) ArgUndefined ++ [v].

(** [f?.bind(o)]: the bound method, or [undefined] when it is missing. *)
Definition bind_method (m : option Callback) : Arg :=
  match m with Some f => ArgFunction f | None => ArgUndefined end.

(** ** Failures *)

Inductive ErrorKind :=
| ValidationError     (* malformed arguments, detected before enqueue *)
| TerminatedError     (* the client has already been terminated *)
| RemoteError.        (* reported by the commit or listen channel *)

(** What a call can throw: a [FirestoreError] for the user, or the failure
    of an internal assertion. *)
Inductive Failure :=
| FirestoreError (kind : ErrorKind) (message : string)
| AssertionFailure (message : string).

Inductive Outcome (A : Type) :=
| Return (a : A)
| Throw (e : Failure).
Arguments Return {A} a.
Arguments Throw {A} e.

Definition is_validation_error (e : Failure) : bool :=
  match e with FirestoreError ValidationError _ => true | _ => false end.

Definition is_terminated_error (e : Failure) : bool :=
  match e with FirestoreError TerminatedError _ => true | _ => false end.

Definition is_assertion_failure (e : Failure) : bool :=
  match e with AssertionFailure _ => true | _ => false end.

(** ** Queries, references and mutations *)

Inductive Direction := Ascending | Descending.
Inductive LimitType := First | Last.

Module InternalQuery.
Record t := mk {
  path : ResourcePath;
  explicitOrderBy : list (FieldPath * Direction);
  limit : option nat;
  limitType : LimitType
}.
End InternalQuery.

(** Modelled from the spec: [newQueryForPath], declared in [core/query];
    the query for a path has no order term and no limit. *)
Definition newQueryForPath (path : ResourcePath) : InternalQuery.t :=
  InternalQuery.mk path [] None First.

(** A [FirestoreDataConverter], known by its identity. *)
Definition Converter := nat.

Module Query.
Record t := mk { _query : InternalQuery.t; converter : option Converter }.
End Query.

Module DocumentReference.
Record t := mk { _key : DocumentKey; _converter : option Converter }.
End DocumentReference.

Module CollectionReference.
Record t := mk { _path : ResourcePath; converter : option Converter }.
End CollectionReference.

(** [Precondition.none()] and [Precondition.exists(b)]. *)
Inductive Precondition :=
| PreconditionNone
| PreconditionExists (b : bool).

Inductive FieldKey :=
| FieldName (s : string)
| FieldOf (p : FieldPath).

Inductive Mutation :=
| SetMutation (key : DocumentKey) (data : JsValue) (precondition : Precondition)
| PatchMutation (key : DocumentKey) (field : FieldKey) (value : JsValue)
                (precondition : Precondition)
| DeleteMutation (key : DocumentKey) (precondition : Precondition).

Definition mutation_key (m : Mutation) : DocumentKey :=
  match m with
  | SetMutation k _ _ | PatchMutation k _ _ _ | DeleteMutation k _ => k
  end.

Definition mutation_precondition (m : Mutation) : Precondition :=
  match m with
  | SetMutation _ _ p | PatchMutation _ _ _ p | DeleteMutation _ p => p
  end.

(** ** Documents and snapshots *)

Module Document.
Record t := mk {
  key : DocumentKey;
  data : JsValue;
  hasLocalMutations : bool
}.
End Document.

Module ViewSnapshot.
Record t := mk {
  docs : gmap (list string) Document.t;
  fromCache : bool;
  hasPendingWrites : bool
}.
End ViewSnapshot.

(** [new SnapshotMetadata(hasPendingWrites, fromCache)] *)
Module SnapshotMetadata.
Record t := mk { hasPendingWrites : bool; fromCache : bool }.
End SnapshotMetadata.

(** [new DocumentSnapshot(firestore, key, document, metadata, converter)] *)
Module DocumentSnapshot.
Record t := mk {
  _key : DocumentKey;
  _document : option Document.t;
  metadata : SnapshotMetadata.t;
  _converter : option Converter
}.
(** Modelled from the spec: [DocumentSnapshot.exists] and
    [DocumentSnapshot.data], declared in [./snapshot]; the snapshot exposes
    the existence and the data of its document. *)
Definition exists_ (s : t) : bool := bool_decide (is_Some (_document s)).
Definition data (s : t) : option JsValue := Document.data <$> _document s.
End DocumentSnapshot.

(** [new QuerySnapshot(firestore, query, snapshot)] *)
Module QuerySnapshot.
Record t := mk { query : Query.t; _snapshot : ViewSnapshot.t }.
End QuerySnapshot.

(** ** The client instance and its operation queue *)

(** [{ source: 'default' }] and [{ source: 'server' }] *)
Inductive Source := SourceDefault | SourceServer.

Module ListenOptions.
Record t := mk { includeMetadataChanges : option bool }.
End ListenOptions.

(** [new QueryListener(query, observer, options)]; the observer is the
    address of an [AsyncObserver] on the heap. *)
Module QueryListener.
Record t := mk {
  query : InternalQuery.t;
  observer : nat;
  options : ListenOptions.t
}.
End QueryListener.

(** The body of a queued task, named after the collaborator it calls once
    its component ([getEventManager], [getLocalStore], [getSyncEngine]) is
    available.  A deferred is the address of a [Deferred] cell. *)
Inductive Task :=
| readDocumentViaSnapshotListener (key : DocumentKey) (source : Source) (deferred : nat)
| readDocumentFromCache (key : DocumentKey) (deferred : nat)
| executeQueryViaSnapshotListener (query : InternalQuery.t) (source : Source) (deferred : nat)
| executeQueryFromCache (query : InternalQuery.t) (deferred : nat)
| syncEngineWrite (mutations : list Mutation) (deferred : nat)
| eventManagerListen (listener : QueryListener.t)
| eventManagerUnlisten (listener : QueryListener.t)
| addSnapshotsInSyncListener (observer : nat)
| removeSnapshotsInSyncListener (observer : nat).

(** The observer handed to [new AsyncObserver(observer)]. *)
Inductive PartialObserver :=
| DocumentObserver (ref : DocumentReference.t) (next error complete : Arg)
| QueryObserver (query : Query.t) (next error complete : Arg)
| ObjectObserver (o : JsObject.t)
| NextObserver (next : Arg).

Module AsyncObserver.
Record t := mk { observer : PartialObserver; muted : bool }.
End AsyncObserver.

(** The client instance, together with the objects the entry points
    allocate: [_deferreds] counts the [Deferred] cells created so far (the
    next one gets that address), [_observers] is the heap of
    [AsyncObserver] objects, [_autoIds] counts the document ids drawn. *)
Module FirebaseFirestore.
Record t := mk {
  _terminated : bool;
  _queue : list Task;
  _deferreds : nat;
  _observers : list AsyncObserver.t;
  _autoIds : nat
}.
End FirebaseFirestore.
Import FirebaseFirestore.

Definition set_queue (q : list Task) (fs : FirebaseFirestore.t) : FirebaseFirestore.t :=
  FirebaseFirestore.mk (_terminated fs) q (_deferreds fs) (_observers fs) (_autoIds fs).

Definition set_deferreds (n : nat) (fs : FirebaseFirestore.t) : FirebaseFirestore.t :=
  FirebaseFirestore.mk (_terminated fs) (_queue fs) n (_observers fs) (_autoIds fs).

Definition set_observers (os : list AsyncObserver.t) (fs : FirebaseFirestore.t)
  : FirebaseFirestore.t :=
  FirebaseFirestore.mk (_terminated fs) (_queue fs) (_deferreds fs) os (_autoIds fs).

Definition set_autoIds (n : nat) (fs : FirebaseFirestore.t) : FirebaseFirestore.t :=
  FirebaseFirestore.mk (_terminated fs) (_queue fs) (_deferreds fs) (_observers fs) n.

(** ** The monad of the synchronous part of a call *)

(** A call reads and updates the client and either returns or throws; what
    it did before throwing stays done. *)
Definition Call (A : Type) : Type := FirebaseFirestore.t -> Outcome A * FirebaseFirestore.t.

Definition ret {A} (a : A) : Call A := fun fs => (Return a, fs).

Definition bind {A B} (m : Call A) (k : A -> Call B) : Call B :=
  fun fs =>
    match m fs with
    | (Return a, fs') => k a fs'
    | (Throw e, fs') => (Throw e, fs')
    end.

Definition lift {A} (o : Outcome A) : Call A := fun fs => (o, fs).

Declare Scope call_scope.
Delimit Scope call_scope with call.
Notation "'let*' x ':=' m 'in' k" := (bind m (fun x => k))
  (at level 10, x name, m at level 100, k at level 200) : call_scope.
Notation "'do' m 'in' k" := (bind m (fun _ => k))
  (at level 10, m at level 100, k at level 200) : call_scope.
Local Open Scope call_scope.

(** Modelled from the spec: [FirebaseFirestore._verifyNotTerminated], which
    is declared in [./database]; a terminated client fails fast with a
    terminated-state error. *)
Definition _verifyNotTerminated : Call unit :=
  fun fs =>
    if _terminated fs
    then (Throw (FirestoreError TerminatedError "The client has already been terminated."), fs)
    else (Return tt, fs).

(** Modelled from the spec: [AsyncQueue.enqueueAndForget]; the queue runs
    its tasks strictly in submission order, so a task is appended; once
    the owning client is torn down the queue refuses new submissions and
    fails fast with a terminated error. *)
Definition enqueueAndForget (task : Task) : Call unit :=
  fun fs =>
    if _terminated fs
    then (Throw (FirestoreError TerminatedError "The client has already been terminated."), fs)
    else (Return tt, set_queue (_queue fs ++ [task]) fs).

(** [cast(ref.firestore, FirebaseFirestore)]: the client instance. *)
Definition firestoreOf : Call FirebaseFirestore.t := fun fs => (Return fs, fs).

(** Modelled from the spec: [new Deferred<T>()], declared in
    [util/promise]; a pending cell at a fresh address. *)
Definition newDeferred : Call nat :=
  fun fs => (Return (_deferreds fs), set_deferreds (S (_deferreds fs)) fs).

(** Modelled from the spec: [new AsyncObserver(observer)], declared in
    [util/async_observer]; an unmuted observer at a fresh address. *)
Definition newAsyncObserver (o : PartialObserver) : Call nat :=
  fun fs => (Return (length (_observers fs)),
             set_observers (_observers fs ++ [AsyncObserver.mk o false]) fs).

(** ** Promises *)

(** The state of a [Deferred] cell, or of a promise derived from it. *)
Inductive Settlement (A : Type) :=
| Pending
| Resolved (a : A)
| Rejected (e : Failure).
Arguments Pending {A}.
Arguments Resolved {A} a.
Arguments Rejected {A} e.

(** [deferred.promise.then(onFulfilled)]: the promise of the cell at address
    [deferred], continued by [onFulfilled]. *)
Module Promise.
Record t (T R : Type) := mk { deferred : nat; onFulfilled : T -> Outcome R }.
Arguments mk {T R} deferred onFulfilled.
Arguments deferred {T R}.
Arguments onFulfilled {T R}.

(** [p.then(f)] *)
Definition then_ {T R S} (p : t T R) (f : R -> Outcome S) : t T S :=
  mk (deferred p)
     (fun v => match onFulfilled p v with
               | Return r => f r
               | Throw e => Throw e
               end).

(** The state of the promise when its cell is in state [s]: a
    continuation that throws rejects the promise. *)
Definition state {T R} (p : t T R) (s : Settlement T) : Settlement R :=
  match s with
  | Pending => Pending
  | Resolved v => match onFulfilled p v with
                  | Return r => Resolved r
                  | Throw e => Rejected e
                  end
  | Rejected e => Rejected e
  end.
End Promise.

(** Sequencing of outcomes, for the pure helpers. *)
Definition and_then {A B} (o : Outcome A) (k : A -> Outcome B) : Outcome B :=
  match o with
  | Return a => k a
  | Throw e => Throw e
  end.

(** ** Collaborators declared outside this file *)

(** Modelled from the spec: [debugAssert], declared in [util/assert]; a
    violated invariant is a fatal assertion failure, not a user error. *)
Definition debugAssert (assertion : bool) (message : string) : Outcome unit :=
  if assertion then Return tt else Throw (AssertionFailure message).

(** Modelled from the spec: [isPartialObserver], declared in
    [api/observer]; an object is an observer when it carries one of the
    callbacks of the triple. *)
Definition isPartialObserver (a : Arg) : bool :=
  match a with
  | ArgObject o =>
      bool_decide (is_Some (JsObject.next o))
      || bool_decide (is_Some (JsObject.error o))
      || bool_decide (is_Some (JsObject.complete o))
  | _ => false
  end.

(** Modelled from the spec: [Query.hasLimitToLast], declared in
    [core/query]; a query is consumed as "last N" when it has a limit,
    taken from the end. *)
Definition hasLimitToLast (q : InternalQuery.t) : bool :=
  bool_decide (is_Some (InternalQuery.limit q))
  && match InternalQuery.limitType q with Last => true | First => false end.

(** Modelled from the spec: [validateHasExplicitOrderByForLimitToLast],
    declared in [api/database]; a "last N" query without an explicit
    order term is rejected with a validation error. *)
Definition validateHasExplicitOrderByForLimitToLast (q : InternalQuery.t) : Outcome unit :=
  if hasLimitToLast q && bool_decide (InternalQuery.explicitOrderBy q = [])
  then Throw (FirestoreError ValidationError
                "limitToLast() queries require specifying at least one orderBy() clause")
  else Return tt.

Module SetOptions.
Record t := mk { merge : option bool; mergeFields : option (list FieldKey) }.
(** [{}] *)
Definition empty : t := mk None None.
End SetOptions.

Module ParsedSetData.
Record t := mk { data : JsValue }.
(** Modelled from the spec: [ParsedSetData.toMutations], declared in
    [api/user_data_reader]; a set is parsed into a single mutation that
    carries the precondition. *)
Definition toMutations (p : t) (key : DocumentKey) (precondition : Precondition)
  : list Mutation :=
  [SetMutation key (data p) precondition].
End ParsedSetData.

Module ParsedUpdateData.
Record t := mk { fields : list (FieldKey * JsValue) }.
(** Modelled from the spec: [ParsedUpdateData.toMutations], declared in
    [api/user_data_reader]; an update produces one field mutation per
    field/value pair, in order, each carrying the precondition. *)
Definition toMutations (p : t) (key : DocumentKey) (precondition : Precondition)
  : list Mutation :=
  (fun fv => PatchMutation key (fst fv) (snd fv) precondition) <$> fields p.
End ParsedUpdateData.

(** The first parameter of [updateDoc] after the reference:
    [string | FieldPath | UpdateData]. *)
Inductive FieldOrUpdateData :=
| FieldString (s : string)
| FieldPathObject (p : FieldPath)
| UpdateDataObject (d : list (string * JsValue)).

(** Modelled from the spec: [fieldPathFromArgument], declared in
    [api/user_data_reader]; a vararg in field position must be a string or
    a [FieldPath], anything else is a malformed update argument. *)
Definition fieldPathFromArgument (a : JsValue) : Outcome FieldKey :=
  match a with
  | JStr s => Return (FieldName s)
  | JFieldPath p => Return (FieldOf p)
  | _ => Throw (FirestoreError ValidationError
                  "Field path arguments must be of type string or FieldPath.")
  end.

(** Modelled from the spec: the loop of [parseUpdateVarargs] over the
    trailing varargs, read as alternating field names and values. *)
Fixpoint fieldsAndValues (more : list JsValue) : Outcome (list (FieldKey * JsValue)) :=
  match more with
  | [] => Return []
  | [_] => Throw (FirestoreError ValidationError
                    "Arguments must alternate between field names and values.")
  | f :: v :: rest =>
      and_then (fieldPathFromArgument f) (fun k =>
      and_then (fieldsAndValues rest) (fun kvs => Return ((k, v) :: kvs)))
  end.

Definition is_undefined (v : JsValue) : bool :=
  match v with JUndefined => true | _ => false end.

(** The data-model parsing of the user's values is an external
    collaborator of this file: the reader and the parsers of whole objects
    are parameters of the development. *)
Class UserDataApi := {
  UserDataReader : Type;
  newUserDataReader : FirebaseFirestore.t -> UserDataReader;
  applyFirestoreDataConverter :
    option Converter -> JsValue -> option SetOptions.t -> Outcome JsValue;
  parseSetData :
    UserDataReader -> string -> DocumentKey -> JsValue -> bool ->
    option SetOptions.t -> Outcome ParsedSetData.t;
  parseUpdateData :
    UserDataReader -> string -> DocumentKey -> list (string * JsValue) ->
    Outcome ParsedUpdateData.t
}.

(** Modelled from the spec: [parseUpdateVarargs], declared in
    [api/user_data_reader]; the call is rejected with a validation error
    when no field/value pair is given (the value is missing and nothing
    follows) or when the trailing varargs are odd in number; otherwise the
    pairs are kept in the order they were given. *)
Definition parseUpdateVarargs `{UserDataApi} (dataReader : UserDataReader)
    (methodName : string) (key : DocumentKey) (field : FieldKey) (value : JsValue)
    (moreFieldsAndValues : list JsValue) : Outcome ParsedUpdateData.t :=
  if Nat.odd (length moreFieldsAndValues)
  then Throw (FirestoreError ValidationError
                "Function needs to be called with an even number of arguments that alternate between field names and values.")
  else if is_undefined value && bool_decide (moreFieldsAndValues = [])
  then Throw (FirestoreError ValidationError
                "Function requires at least one field and value.")
  else and_then (fieldsAndValues moreFieldsAndValues) (fun kvs =>
       Return (ParsedUpdateData.mk ((field, value) :: kvs))).

(** Modelled from the spec: [AutoId.newId], the key factory behind
    [doc(collRef)]; the id drawn at its [n]-th use, collision-free. *)
Definition autoId (n : nat) : string := pretty n.

(** Modelled from the spec: [doc(collRef)], declared in
    [lite/src/api/reference]; a fresh document key is allocated under the
    collection, its id drawn from the collision-free key factory. *)
Definition doc (collRef : CollectionReference.t) : Call DocumentReference.t :=
  fun fs =>
    (Return (DocumentReference.mk
               (CollectionReference._path collRef ++ [autoId (_autoIds fs)])
               (CollectionReference.converter collRef)),
     set_autoIds (S (_autoIds fs)) fs).

(** The reference [doc(collRef)] returns on client [fs], and the client
    after the id was drawn. *)
Definition allocatedRef (collRef : CollectionReference.t) (fs : FirebaseFirestore.t)
  : DocumentReference.t :=
  DocumentReference.mk (CollectionReference._path collRef ++ [autoId (_autoIds fs)])
                       (CollectionReference.converter collRef).

Definition afterAllocation (fs : FirebaseFirestore.t) : FirebaseFirestore.t :=
  set_autoIds (S (_autoIds fs)) fs.

(** Modelled from the spec: [AsyncObserver.mute], declared in
    [util/async_observer]; the mute flag of the observer is set, for good. *)
Definition mute (wrappedObserver : nat) : Call unit :=
  fun fs =>
    (Return tt,
     set_observers
       (alter (fun o => AsyncObserver.mk (AsyncObserver.observer o) true)
              wrappedObserver (_observers fs)) fs).

(** ** The entry points of [reference.ts] *)

Section Api.
Context `{api : UserDataApi}.

(** [convertToDocSnapshot(firestore, ref, snapshot)] *)
Definition convertToDocSnapshot (ref : DocumentReference.t) (snapshot : ViewSnapshot.t)
  : Outcome DocumentSnapshot.t :=
  and_then
    (debugAssert (bool_decide (size (ViewSnapshot.docs snapshot) <= 1)%nat)
                 "Expected zero or a single result on a document-only query")
    (fun _ =>
       let doc := ViewSnapshot.docs snapshot !! DocumentReference._key ref in
       Return (DocumentSnapshot.mk
                 (DocumentReference._key ref)
                 doc
                 (SnapshotMetadata.mk (ViewSnapshot.hasPendingWrites snapshot)
                                      (ViewSnapshot.fromCache snapshot))
                 (DocumentReference._converter ref))).

(** [executeWrite(firestore, mutations)] *)
Definition executeWrite (mutations : list Mutation) : Call (Promise.t unit unit) :=
  let* deferred := newDeferred in
  do enqueueAndForget (syncEngineWrite mutations deferred) in
  ret (Promise.mk deferred Return).

Definition getDoc (ref : DocumentReference.t)
  : Call (Promise.t ViewSnapshot.t DocumentSnapshot.t) :=
  do _verifyNotTerminated in
  let* deferred := newDeferred in
  do enqueueAndForget
       (readDocumentViaSnapshotListener (DocumentReference._key ref) SourceDefault deferred) in
  ret (Promise.mk deferred (fun snapshot => convertToDocSnapshot ref snapshot)).

(** The continuation of [getDocFromCache]: [doc] is a [Document] or
    [null]. *)
Definition getDocFromCache_then (ref : DocumentReference.t) (doc : option Document.t)
  : Outcome DocumentSnapshot.t :=
  Return (DocumentSnapshot.mk
            (DocumentReference._key ref)
            doc
            (SnapshotMetadata.mk
               (match doc with
                | Some d => Document.hasLocalMutations d
                | None => false
                end)
               (* fromCache= *) true)
            (DocumentReference._converter ref)).

Definition getDocFromCache (ref : DocumentReference.t)
  : Call (Promise.t (option Document.t) DocumentSnapshot.t) :=
  do _verifyNotTerminated in
  let* deferred := newDeferred in
  do enqueueAndForget (readDocumentFromCache (DocumentReference._key ref) deferred) in
  ret (Promise.mk deferred (getDocFromCache_then ref)).

Definition getDocFromServer (ref : DocumentReference.t)
  : Call (Promise.t ViewSnapshot.t DocumentSnapshot.t) :=
  do _verifyNotTerminated in
  let* deferred := newDeferred in
  do enqueueAndForget
       (readDocumentViaSnapshotListener (DocumentReference._key ref) SourceServer deferred) in
  ret (Promise.mk deferred (fun snapshot => convertToDocSnapshot ref snapshot)).

Definition getDocs (query : Query.t) : Call (Promise.t ViewSnapshot.t QuerySnapshot.t) :=
  do _verifyNotTerminated in
  do lift (validateHasExplicitOrderByForLimitToLast (Query._query query)) in
  let* deferred := newDeferred in
  do enqueueAndForget
       (executeQueryViaSnapshotListener (Query._query query) SourceDefault deferred) in
  ret (Promise.mk deferred (fun snapshot => Return (QuerySnapshot.mk query snapshot))).

Definition getDocsFromCache (query : Query.t)
  : Call (Promise.t ViewSnapshot.t QuerySnapshot.t) :=
  do _verifyNotTerminated in
  let* deferred := newDeferred in
  do enqueueAndForget (executeQueryFromCache (Query._query query) deferred) in
  ret (Promise.mk deferred (fun snapshot => Return (QuerySnapshot.mk query snapshot))).

Definition getDocsFromServer (query : Query.t)
  : Call (Promise.t ViewSnapshot.t QuerySnapshot.t) :=
  do _verifyNotTerminated in
  let* deferred := newDeferred in
  do enqueueAndForget
       (executeQueryViaSnapshotListener (Query._query query) SourceServer deferred) in
  ret (Promise.mk deferred (fun snapshot => Return (QuerySnapshot.mk query snapshot))).

Definition setDoc (ref : DocumentReference.t) (data : JsValue)
    (options : option SetOptions.t) : Call (Promise.t unit unit) :=
  do _verifyNotTerminated in
  let* convertedValue :=
    lift (applyFirestoreDataConverter (DocumentReference._converter ref) data options) in
  let* firestore := firestoreOf in
  let dataReader := newUserDataReader firestore in
  let* parsed :=
    lift (parseSetData dataReader "setDoc" (DocumentReference._key ref) convertedValue
            (bool_decide (DocumentReference._converter ref <> None)) options) in
  let mutations :=
    ParsedSetData.toMutations parsed (DocumentReference._key ref) PreconditionNone in
  executeWrite mutations.

Definition updateDoc (ref : DocumentReference.t) (fieldOrUpdateData : FieldOrUpdateData)
    (value : JsValue) (moreFieldsAndValues : list JsValue) : Call (Promise.t unit unit) :=
  do _verifyNotTerminated in
  let* firestore := firestoreOf in
  let dataReader := newUserDataReader firestore in
  let* parsed :=
    lift (match fieldOrUpdateData with
          | FieldString s =>
              parseUpdateVarargs dataReader "updateDoc" (DocumentReference._key ref)
                (FieldName s) value moreFieldsAndValues
          | FieldPathObject p =>
              parseUpdateVarargs dataReader "updateDoc" (DocumentReference._key ref)
                (FieldOf p) value moreFieldsAndValues
          | UpdateDataObject d =>
              parseUpdateData dataReader "updateDoc" (DocumentReference._key ref) d
          end) in
  let mutations :=
    ParsedUpdateData.toMutations parsed (DocumentReference._key ref)
      (PreconditionExists true) in
  executeWrite mutations.

Definition deleteDoc (ref : DocumentReference.t) : Call (Promise.t unit unit) :=
  do _verifyNotTerminated in
  let mutations := [DeleteMutation (DocumentReference._key ref) PreconditionNone] in
  executeWrite mutations.

Definition addDoc (collRef : CollectionReference.t) (data : JsValue)
  : Call (Promise.t unit DocumentReference.t) :=
  do _verifyNotTerminated in
  let* docRef := doc collRef in
  let* convertedValue :=
    lift (applyFirestoreDataConverter (CollectionReference.converter collRef) data None) in
  let* firestore := firestoreOf in
  let dataReader := newUserDataReader firestore in
  let* parsed :=
    lift (parseSetData dataReader "addDoc" (DocumentReference._key docRef) convertedValue
            (bool_decide (CollectionReference.converter collRef <> None))
            (Some SetOptions.empty)) in
  let mutations :=
    ParsedSetData.toMutations parsed (DocumentReference._key docRef)
      (PreconditionExists false) in
  let* written := executeWrite mutations in
  ret (Promise.then_ written (fun _ => Return docRef)).

(** The first parameter of [onSnapshot]: [Query<T> | DocumentReference<T>]. *)
Inductive ListenTarget :=
| OnDocument (ref : DocumentReference.t)
| OnQuery (query : Query.t).

(** The function an entry point returns to cancel a listener. *)
Definition Unsubscribe := Call unit.

Definition onSnapshot (ref : ListenTarget) (args : list Arg) : Call Unsubscribe :=
  let options := JsObject.mk (Some false) None None None in
  let currArg := 0%nat in
  let '(options, currArg) :=
    match arg_get args currArg with
    | ArgObject o =>
        if negb (isPartialObserver (ArgObject o)) then (o, S currArg)
        else (options, currArg)
    | _ => (options, currArg)
    end in
  let internalOptions := ListenOptions.mk (JsObject.includeMetadataChanges options) in
  let args :=
    match arg_get args currArg with
    | ArgObject userObserver =>
        if isPartialObserver (ArgObject userObserver)
        then arg_set
               (arg_set
                  (arg_set args currArg (bind_method (JsObject.next userObserver)))
                  (currArg + 1) (bind_method (JsObject.error userObserver)))
               (currArg + 2) (bind_method (JsObject.complete userObserver))
        else args
    | _ => args
    end in
  let* branch :=
    match ref with
    | OnDocument ref =>
        let internalQuery := newQueryForPath (DocumentReference._key ref) in
        ret (DocumentObserver ref (arg_get args currArg) (arg_get args (currArg + 1))
                              (arg_get args (currArg + 2)),
             internalQuery)
    | OnQuery query =>
        let internalQuery := Query._query query in
        do lift (validateHasExplicitOrderByForLimitToLast (Query._query query)) in
        ret (QueryObserver query (arg_get args currArg) (arg_get args (currArg + 1))
                           (arg_get args (currArg + 2)),
             internalQuery)
    end in
  let observer : PartialObserver := fst branch in
  let internalQuery : InternalQuery.t := snd branch in
  do _verifyNotTerminated in
  let* wrappedObserver := newAsyncObserver observer in
  let listener := QueryListener.mk internalQuery wrappedObserver internalOptions in
  do enqueueAndForget (eventManagerListen listener) in
  ret (do mute wrappedObserver in
       enqueueAndForget (eventManagerUnlisten listener)).

Definition onSnapshotsInSync (arg : Arg) : Call Unsubscribe :=
  do _verifyNotTerminated in
  let observer :=
    match arg with
    | ArgObject o => if isPartialObserver arg then ObjectObserver o else NextObserver arg
    | _ => NextObserver arg
    end in
  let* wrappedObserver := newAsyncObserver observer in
  do enqueueAndForget (addSnapshotsInSyncListener wrappedObserver) in
  ret (do mute wrappedObserver in
       enqueueAndForget (removeSnapshotsInSyncListener wrappedObserver)).
End Api.

(** ** Calls as data *)

(** A call of a public entry point with its arguments. *)
Inductive EntryPoint :=
| CallGetDoc (ref : DocumentReference.t)
| CallGetDocFromCache (ref : DocumentReference.t)
| CallGetDocFromServer (ref : DocumentReference.t)
| CallGetDocs (query : Query.t)
| CallGetDocsFromCache (query : Query.t)
| CallGetDocsFromServer (query : Query.t)
| CallSetDoc (ref : DocumentReference.t) (data : JsValue) (options : option SetOptions.t)
| CallUpdateDoc (ref : DocumentReference.t) (fieldOrUpdateData : FieldOrUpdateData)
                (value : JsValue) (moreFieldsAndValues : list JsValue)
| CallDeleteDoc (ref : DocumentReference.t)
| CallAddDoc (collRef : CollectionReference.t) (data : JsValue)
| CallOnSnapshot (ref : ListenTarget) (args : list Arg)
| CallOnSnapshotsInSync (arg : Arg).

(** The call, its result dropped. *)
Definition void {A} (m : Call A) : Call unit := bind m (fun _ => ret tt).

Definition invoke `{api : UserDataApi} (ep : EntryPoint) : Call unit :=
  match ep with
  | CallGetDoc ref => void (getDoc ref)
  | CallGetDocFromCache ref => void (getDocFromCache ref)
  | CallGetDocFromServer ref => void (getDocFromServer ref)
  | CallGetDocs q => void (getDocs q)
  | CallGetDocsFromCache q => void (getDocsFromCache q)
  | CallGetDocsFromServer q => void (getDocsFromServer q)
  | CallSetDoc ref data options => void (setDoc ref data options)
  | CallUpdateDoc ref f v more => void (updateDoc ref f v more)
  | CallDeleteDoc ref => void (deleteDoc ref)
  | CallAddDoc collRef data => void (addDoc collRef data)
  | CallOnSnapshot ref args => void (onSnapshot ref args)
  | CallOnSnapshotsInSync arg => void (onSnapshotsInSync arg)
  end.

(** ** Concrete inputs *)

(** A reader that takes every value as it is. *)
Definition plainApi : UserDataApi := {|
  UserDataReader := unit;
  newUserDataReader := fun _ => tt;
  applyFirestoreDataConverter := fun _ v _ => Return v;
  parseSetData := fun _ _ _ v _ _ => Return (ParsedSetData.mk v);
  parseUpdateData := fun _ _ _ d =>
    Return (ParsedUpdateData.mk ((fun kv => (FieldName (fst kv), snd kv)) <$> d))
|}.

(** A client in use, and the same client after [terminate]. *)
Definition liveClient : FirebaseFirestore.t := FirebaseFirestore.mk false [] 0 [] 0.
Definition terminatedClient : FirebaseFirestore.t := FirebaseFirestore.mk true [] 0 [] 0.

(** [limitToLast(collection("rooms"), 5)] without [orderBy]. *)
Definition lastFiveRooms : Query.t :=
  Query.mk (InternalQuery.mk ["rooms"] [] (Some 5%nat) Last) None.

(** [collection("rooms")] *)
Definition roomsRef : CollectionReference.t := CollectionReference.mk ["rooms"] None.

(** [doc("rooms/eros")] *)
Definition erosRef : DocumentReference.t := DocumentReference.mk ["rooms"; "eros"] None.

(** ** The write pipeline behind the queue *)

Module SyncEngine.
(** The remote commit channel reports on the oldest write it was given. *)
Inductive CommitResult :=
| Acknowledged
| Failed (e : Failure).

(** The part of the sync engine a write goes through: the cells of the
    writes that are settled (a cell not in [cells] is pending), the
    mutations applied to the local cache, and the writes forwarded to
    the remote commit channel and not yet reported on. *)
Record t := mk {
  cells : gmap nat (Settlement unit);
  localCache : list Mutation;
  commitChannel : list (nat * list Mutation)
}.

Definition empty : t := mk ∅ [] [].

Definition cell (s : t) (deferred : nat) : Settlement unit :=
  default Pending (cells s !! deferred).

(** Modelled from the spec: [Deferred.resolve] and [Deferred.reject],
    declared in [util/promise]; a cell is settled once. *)
Definition settle (deferred : nat) (v : Settlement unit) (s : t) : t :=
  match cell s deferred with
  | Pending => mk (<[deferred := v]> (cells s)) (localCache s) (commitChannel s)
  | _ => s
  end.

(** Modelled from the spec: [syncEngineWrite], declared in
    [core/sync_engine]; the task applies the mutations to the local cache
    (optimistically) and forwards them to the remote commit channel; the
    caller's cell is left for the commit to settle. *)
Definition write (mutations : list Mutation) (deferred : nat) (s : t) : t :=
  mk (cells s) (localCache s ++ mutations) (commitChannel s ++ [(deferred, mutations)]).

Definition settlementOf (r : CommitResult) : Settlement unit :=
  match r with
  | Acknowledged => Resolved tt
  | Failed e => Rejected e
  end.

(** Modelled from the spec: the remote commit of the oldest forwarded
    write is acknowledged or fails, and the write's cell is resolved or
    rejected accordingly. *)
Definition commit (r : CommitResult) (s : t) : t :=
  match commitChannel s with
  | [] => s
  | (deferred, _) :: rest =>
      settle deferred (settlementOf r) (mk (cells s) (localCache s) rest)
  end.

Definition commits (rs : list CommitResult) (s : t) : t :=
  foldl (fun s r => commit r s) s rs.

(** Running a queued task: only a write concerns this part of the
    engine. *)
Definition runTask (task : Task) (s : t) : t :=
  match task with
  | syncEngineWrite mutations deferred => write mutations deferred s
  | _ => s
  end.
End SyncEngine.

(** ** Delivery of events to observers *)

Module Delivery.
Inductive Event := NextEvent | ErrorEvent.

(** The running client: the instance with its heap of observers, the
    deliveries that are scheduled and have not run yet, and the user
    callbacks invoked so far (observer, callback, event), oldest first. *)
Record t := mk {
  client : FirebaseFirestore.t;
  scheduled : list (nat * Event);
  invocations : list (nat * Callback * Event)
}.

Definition start (fs : FirebaseFirestore.t) : t := mk fs [] [].

Definition isMuted (fs : FirebaseFirestore.t) (o : nat) : bool :=
  match _observers fs !! o with
  | Some a => AsyncObserver.muted a
  | None => false
  end.

Definition asFunction (a : Arg) : option Callback :=
  match a with ArgFunction f => Some f | _ => None end.

(** The user callback an event ends in, if the observer has one for it. *)
Definition handler (obs : PartialObserver) (ev : Event) : option Callback :=
  match obs, ev with
  | DocumentObserver _ next _ _, NextEvent => asFunction next
  | DocumentObserver _ _ error _, ErrorEvent => asFunction error
  | QueryObserver _ next _ _, NextEvent => asFunction next
  | QueryObserver _ _ error _, ErrorEvent => asFunction error
  | ObjectObserver o, NextEvent => JsObject.next o
  | ObjectObserver o, ErrorEvent => JsObject.error o
  | NextObserver next, NextEvent => asFunction next
  | NextObserver _, ErrorEvent => None
  end.

(** Modelled from the spec: [AsyncObserver.next] and
    [AsyncObserver.error], declared in [util/async_observer]; an event
    for an observer that is not muted is scheduled for delivery. *)
Definition emit (o : nat) (ev : Event) (r : t) : t :=
  match _observers (client r) !! o with
  | Some a =>
      if AsyncObserver.muted a then r
      else mk (client r) (scheduled r ++ [(o, ev)]) (invocations r)
  | None => r
  end.

(** Modelled from the spec: the delivery scheduled by [AsyncObserver];
    when it runs, the callback is invoked unless the observer has been
    muted in the meantime. *)
Definition deliver (i : nat) (r : t) : t :=
  match scheduled r !! i with
  | Some (o, ev) =>
      let rest := delete i (scheduled r) in
      match _observers (client r) !! o with
      | Some a =>
          if AsyncObserver.muted a then mk (client r) rest (invocations r)
          else match handler (AsyncObserver.observer a) ev with
               | Some f => mk (client r) rest (invocations r ++ [(o, f, ev)])
               | None => mk (client r) rest (invocations r)
               end
      | None => mk (client r) rest (invocations r)
      end
  | None => r
  end.

(** A synchronous call on the client. *)
Definition call {A} (m : Call A) (r : t) : t :=
  mk (snd (m (client r))) (scheduled r) (invocations r).

(** The queue runs its oldest task. *)
Definition runTask (r : t) : t :=
  mk (set_queue (tail (_queue (client r))) (client r)) (scheduled r) (invocations r).

(** Modelled from the spec: the termination of the client; the client is
    torn down, its queue keeps the tasks it has accepted. *)
Definition terminate (r : t) : t :=
  mk (FirebaseFirestore.mk true (_queue (client r)) (_deferreds (client r))
        (_observers (client r)) (_autoIds (client r)))
     (scheduled r) (invocations r).

(** What can happen to a running client. *)
Inductive Action :=
| Emit (o : nat) (ev : Event)
| Deliver (i : nat)
| RunTask
| Enter (ep : EntryPoint)
| Cancel (o : nat) (task : Task)
| Terminate.

Definition step `{api : UserDataApi} (a : Action) (r : t) : t :=
  match a with
  | Emit o ev => emit o ev r
  | Deliver i => deliver i r
  | RunTask => runTask r
  | Enter ep => call (invoke ep) r
  | Cancel o task => call (bind (mute o) (fun _ => enqueueAndForget task)) r
  | Terminate => terminate r
  end.

Definition run `{api : UserDataApi} (acts : list Action) (r : t) : t :=
  foldl (fun r a => step a r) r acts.

(** The callbacks invoked on behalf of observer [o]. *)
Definition invocationsOf (o : nat) (r : t) : list (nat * Callback * Event) :=
  filter (fun i => fst (fst i) = o) (invocations r).
End Delivery.

(** The listener [onSnapshot(doc("rooms/eros"), f)] registers on
    [liveClient], the client after the registration, and the function it
    returns. *)
Definition erosListener : QueryListener.t :=
  QueryListener.mk (newQueryForPath ["rooms"; "eros"]) 0 (ListenOptions.mk (Some false)).

Definition erosListening : FirebaseFirestore.t :=
  FirebaseFirestore.mk false [eventManagerListen erosListener] 0
    [AsyncObserver.mk
       (DocumentObserver erosRef (ArgFunction 7%nat) ArgUndefined ArgUndefined) false]
    0.

Definition erosUnsubscribe : Unsubscribe :=
  bind (mute 0) (fun _ => enqueueAndForget (eventManagerUnlisten erosListener)).

(** ** Vocabulary of the statements *)

(** The failure of [_verifyNotTerminated]. *)
Definition terminatedError : Failure :=
  FirestoreError TerminatedError "The client has already been terminated.".

(** [onSnapshot] is given options when its first argument is an object
    that is not an observer. *)
Definition suppliesOptions (args : list Arg) : bool :=
  typeof_object (arg_get args 0) && negb (isPartialObserver (arg_get args 0)).

(** The target passes the checks [onSnapshot] makes before it registers. *)
Definition targetAccepted (target : ListenTarget) : Prop :=
  match target with
  | OnDocument _ => True
  | OnQuery q => validateHasExplicitOrderByForLimitToLast (Query._query q) = Return tt
  end.

(** The client after [executeWrite]: one more cell, one more task. *)
Definition afterWrite (mutations : list Mutation) (fs : FirebaseFirestore.t)
  : FirebaseFirestore.t :=
  set_queue (_queue fs ++ [syncEngineWrite mutations (_deferreds fs)])
            (set_deferreds (S (_deferreds fs)) fs).

(** The parser [updateDoc] selects from the type of its second argument. *)
Definition parseUpdate `{api : UserDataApi} (fs : FirebaseFirestore.t) (ref : DocumentReference.t)
    (fieldOrUpdateData : FieldOrUpdateData) (value : JsValue)
    (moreFieldsAndValues : list JsValue) : Outcome ParsedUpdateData.t :=
  match fieldOrUpdateData with
  | FieldString s =>
      parseUpdateVarargs (newUserDataReader fs) "updateDoc" (DocumentReference._key ref)
        (FieldName s) value moreFieldsAndValues
  | FieldPathObject p =>
      parseUpdateVarargs (newUserDataReader fs) "updateDoc" (DocumentReference._key ref)
        (FieldOf p) value moreFieldsAndValues
  | UpdateDataObject d =>
      parseUpdateData (newUserDataReader fs) "updateDoc" (DocumentReference._key ref) d
  end.

(** A varargs call of [updateDoc]: its second argument is a field. *)
Definition isVarargsCall (f : FieldOrUpdateData) : bool :=
  match f with
  | FieldString _ | FieldPathObject _ => true
  | UpdateDataObject _ => false
  end.

(** The call gives no field/value pair, or an odd number of trailing
    varargs. *)
Definition malformedVarargs (value : JsValue) (more : list JsValue) : bool :=
  (is_undefined value && bool_decide (more = [])) || Nat.odd (length more).

(** A call that leaves the observers on the heap as they are, and at most
    allocates new ones. *)
Definition keepsObservers {A} (m : Call A) : Prop :=
  forall fs, exists extra, _observers (snd (m fs)) = _observers fs ++ extra.

(** The ways to register a listener. *)
Inductive Registration :=
| RegisterSnapshot (ref : ListenTarget) (args : list Arg)
| RegisterSnapshotsInSync (arg : Arg).

Definition register (g : Registration) : Call Unsubscribe :=
  match g with
  | RegisterSnapshot ref args => onSnapshot ref args
  | RegisterSnapshotsInSync arg => onSnapshotsInSync arg
  end.

(** The task that takes a registration back. *)
Definition isDeregistration (o : nat) (task : Task) : Prop :=
  match task with
  | eventManagerUnlisten listener => QueryListener.observer listener = o
  | removeSnapshotsInSyncListener o' => o' = o
  | _ => False
  end.

(** ** The credential conversion of the auth compatibility layer *)

Module AuthCompat.

(** [externs.ProviderId]: the constants the conversion compares the
    provider id with.  They are declared in [@firebase/auth-types-exp];
    the development takes them as a parameter. *)
Module ProviderId.
Record t := mk {
  PASSWORD : string;
  GOOGLE : string;
  FACEBOOK : string;
  GITHUB : string;
  TWITTER : string
}.
End ProviderId.

(** The part of [UserCredential] the conversion reads: [providerId] is a
    string or [null]; [_tokenResponse] is an object, given by its own
    properties, or missing. *)
Module UserCredential.
Record t := mk {
  providerId : option string;
  _tokenResponse : option (gmap string JsValue);
  operationType : string;
  user : nat
}.
End UserCredential.

(** The providers whose static [credentialFromResult] the conversion ends
    in. *)
Inductive Provider :=
| PhoneAuthProvider
| GoogleAuthProvider
| FacebookAuthProvider
| GithubAuthProvider
| TwitterAuthProvider.

(** How the conversion ends: with a [null] of its own, or with the call
    whose result it returns, given by the callee and its arguments.  What
    the callee returns (possibly [null] again) is for [AuthCompat_returned]
    to say. *)
Inductive Credential :=
| Null
| CredentialFromResult (provider : Provider) (userCredential : UserCredential.t)
| OAuthProviderCredential (providerId : string) (idToken accessToken rawNonce : JsValue).

(** JavaScript truthiness of a value. *)
Definition truthyValue (v : JsValue) : bool :=
  match v with
  | JUndefined | JNull => false
  | JBool b => b
  | JNum n => negb (n =? 0)%Z
  | JStr s => negb (bool_decide (s = ""))
  | JFieldPath _ | JObj _ => true
  end.

(** [key in object] *)
Definition hasProperty (key : string) (object : gmap string JsValue) : bool :=
  bool_decide (is_Some (object !! key)).

(** [object[key]]: a missing property reads as [undefined]. *)
Definition property (key : string) (object : gmap string JsValue) : JsValue :=
  default JUndefined (object !! key).

(** [credentialFromResponse(userCredential)] *)
Definition credentialFromResponse (ids : ProviderId.t) (userCredential : UserCredential.t)
  : Credential :=
  match UserCredential._tokenResponse userCredential with
  | None => Null
  | Some _tokenResponse =>
      if hasProperty "temporaryProof" _tokenResponse
         && hasProperty "phoneNumber" _tokenResponse
      then CredentialFromResult PhoneAuthProvider userCredential
      else
        match UserCredential.providerId userCredential with
        | None => Null
        | Some providerId =>
            if bool_decide (providerId = "")
               || bool_decide (providerId = ProviderId.PASSWORD ids)
            then Null
            else if bool_decide (providerId = ProviderId.GOOGLE ids)
            then CredentialFromResult GoogleAuthProvider userCredential
            else if bool_decide (providerId = ProviderId.FACEBOOK ids)
            then CredentialFromResult FacebookAuthProvider userCredential
            else if bool_decide (providerId = ProviderId.GITHUB ids)
            then CredentialFromResult GithubAuthProvider userCredential
            else if bool_decide (providerId = ProviderId.TWITTER ids)
            then CredentialFromResult TwitterAuthProvider userCredential
            else
              let oauthIdToken := property "oauthIdToken" _tokenResponse in
              let oauthAccessToken := property "oauthAccessToken" _tokenResponse in
              let oauthTokenSecret := property "oauthTokenSecret" _tokenResponse in
              let pendingToken := property "pendingToken" _tokenResponse in
              let nonce := property "nonce" _tokenResponse in
              if negb (truthyValue oauthAccessToken)
                 && negb (truthyValue oauthTokenSecret)
                 && negb (truthyValue oauthIdToken)
                 && negb (truthyValue pendingToken)
              then Null
              else OAuthProviderCredential providerId oauthIdToken oauthAccessToken nonce
        end
  end.

(** The value [convertCredential] resolves with. *)
Module CompatUserCredential.
Record t := mk {
  operationType : string;
  credential : Credential;
  user : nat
}.
End CompatUserCredential.

(** [convertCredential(credentialPromise)], as a function of the state of
    the promise it awaits. *)
Definition convertCredential (ids : ProviderId.t)
    (credentialPromise : Settlement UserCredential.t)
  : Settlement CompatUserCredential.t :=
  match credentialPromise with
  | Pending => Pending
  | Rejected e => Rejected e
  | Resolved credential =>
      Resolved (CompatUserCredential.mk
                  (UserCredential.operationType credential)
                  (credentialFromResponse ids credential)
                  (UserCredential.user credential))
  end.

(** The receiver of a method call: the object the method is called on,
    given by its verification id, or [undefined] when the method is called
    detached from its object. *)
Inductive Receiver :=
| Detached
| CalledOn (verificationId : string).

(** [ConfirmationResult]: [confirm] is a method; for a receiver and a
    verification code it throws, or returns a promise, given by the state
    the promise reaches. *)
Module ConfirmationResult.
Record t := mk {
  verificationId : string;
  confirm : Receiver -> string -> Outcome (Settlement UserCredential.t)
}.
(** [result.confirm(verificationCode)] *)
Definition callConfirm (result : t) (verificationCode : string)
  : Outcome (Settlement UserCredential.t) :=
  confirm result (CalledOn (verificationId result)) verificationCode.
End ConfirmationResult.

(** The value [convertComfirmationResult] resolves with: its [confirm] is
    an arrow function, which has no receiver. *)
Module CompatConfirmationResult.
Record t := mk {
  verificationId : string;
  confirm : string -> Outcome (Settlement CompatUserCredential.t)
}.
End CompatConfirmationResult.

(** [convertComfirmationResult(confirmationResultPromise)]: [confirm] is
    taken out of the result and called as a plain function. *)
Definition convertComfirmationResult (ids : ProviderId.t)
    (confirmationResultPromise : Settlement ConfirmationResult.t)
  : Settlement CompatConfirmationResult.t :=
  match confirmationResultPromise with
  | Pending => Pending
  | Rejected e => Rejected e
  | Resolved result =>
      let verificationId := ConfirmationResult.verificationId result in
      let confirm := ConfirmationResult.confirm result Detached in
      Resolved (CompatConfirmationResult.mk
                  verificationId
                  (fun verificationCode =>
                     and_then (confirm verificationCode) (fun credentialPromise =>
                     Return (convertCredential ids credentialPromise))))
  end.

(** The values of [externs.ProviderId]. *)
Definition providerIds : ProviderId.t :=
  ProviderId.mk "password" "google.com" "facebook.com" "github.com" "twitter.com".

(** The provider ids the conversion has a case for. *)
Definition builtinIds (ids : ProviderId.t) : list string :=
  [ProviderId.GOOGLE ids; ProviderId.FACEBOOK ids; ProviderId.GITHUB ids;
   ProviderId.TWITTER ids].

(** The token response has the shape of a phone sign-in. *)
Definition isPhoneResponse (response : gmap string JsValue) : bool :=
  hasProperty "temporaryProof" response && hasProperty "phoneNumber" response.

(** One of the four tokens of the response is truthy. *)
Definition hasToken (response : gmap string JsValue) : bool :=
  truthyValue (property "oauthAccessToken" response)
  || truthyValue (property "oauthTokenSecret" response)
  || truthyValue (property "oauthIdToken" response)
  || truthyValue (property "pendingToken" response).

End AuthCompat.

(** The constant [externs.ProviderId] has for a provider with a case of
    its own. *)
Definition AuthCompat_idOf (ids : AuthCompat.ProviderId.t) (p : AuthCompat.Provider)
  : option string :=
  match p with
  | AuthCompat.PhoneAuthProvider => None
  | AuthCompat.GoogleAuthProvider => Some (AuthCompat.ProviderId.GOOGLE ids)
  | AuthCompat.FacebookAuthProvider => Some (AuthCompat.ProviderId.FACEBOOK ids)
  | AuthCompat.GithubAuthProvider => Some (AuthCompat.ProviderId.GITHUB ids)
  | AuthCompat.TwitterAuthProvider => Some (AuthCompat.ProviderId.TWITTER ids)
  end.

(** The providers behind the conversion, declared in [@firebase/auth-exp]
    and taken as a parameter: a provider's [credentialFromResult] returns
    a credential or [null]; [new OAuthProvider(id).credential(...)]
    returns a credential. *)
Module AuthProviders.
Record t (C : Type) := mk {
  credentialFromResult : AuthCompat.Provider -> AuthCompat.UserCredential.t -> option C;
  oauthCredential : string -> JsValue -> JsValue -> JsValue -> C
}.
Arguments mk {C} credentialFromResult oauthCredential.
Arguments credentialFromResult {C}.
Arguments oauthCredential {C}.
End AuthProviders.

(** The value the conversion returns: [null], or what the call it ends in
    returns. *)
Definition AuthCompat_returned {C} (impl : AuthProviders.t C) (c : AuthCompat.Credential)
  : option C :=
  match c with
  | AuthCompat.Null => None
  | AuthCompat.CredentialFromResult p uc => AuthProviders.credentialFromResult impl p uc
  | AuthCompat.OAuthProviderCredential providerId idToken accessToken rawNonce =>
      Some (AuthProviders.oauthCredential impl providerId idToken accessToken rawNonce)
  end.

(** The case the [switch] on the provider id selects, if any. *)
Definition AuthCompat_switched (ids : AuthCompat.ProviderId.t) (providerId : string)
  : option AuthCompat.Provider :=
  if bool_decide (providerId = AuthCompat.ProviderId.GOOGLE ids)
  then Some AuthCompat.GoogleAuthProvider
  else if bool_decide (providerId = AuthCompat.ProviderId.FACEBOOK ids)
  then Some AuthCompat.FacebookAuthProvider
  else if bool_decide (providerId = AuthCompat.ProviderId.GITHUB ids)
  then Some AuthCompat.GithubAuthProvider
  else if bool_decide (providerId = AuthCompat.ProviderId.TWITTER ids)
  then Some AuthCompat.TwitterAuthProvider
  else None.

(** Providers of which Github's has no credential to give. *)
Definition githubLess : AuthProviders.t string :=
  AuthProviders.mk
    (fun p _ => match p with
                | AuthCompat.GithubAuthProvider => None
                | _ => Some "credential"
                end)
    (fun providerId _ _ _ => providerId).

(** A confirmation whose [confirm] needs its object: called detached it
    throws, called on the result it resolves with a phone sign-in. *)
Definition phoneConfirmation : AuthCompat.ConfirmationResult.t :=
  AuthCompat.ConfirmationResult.mk "v1"
    (fun receiver _ =>
       match receiver with
       | AuthCompat.Detached =>
           Throw (AssertionFailure "Cannot read properties of undefined")
       | AuthCompat.CalledOn _ =>
           Return (Resolved (AuthCompat.UserCredential.mk None
                               (Some {["temporaryProof" := JStr "t";
                                       "phoneNumber" := JStr "+1"]})
                               "signIn" 1))
       end).

(** The constants are pairwise different, and none is the empty string. *)
Definition AuthCompat_distinctIds (ids : AuthCompat.ProviderId.t) : Prop :=
  NoDup ("" :: AuthCompat.ProviderId.PASSWORD ids :: AuthCompat.builtinIds ids).

(** The [Deferred] cell a task settles, and the observer it registers or
    removes. *)
Definition taskDeferred (task : Task) : option nat :=
  match task with
  | readDocumentViaSnapshotListener _ _ d
  | readDocumentFromCache _ d
  | executeQueryViaSnapshotListener _ _ d
  | executeQueryFromCache _ d
  | syncEngineWrite _ d => Some d
  | _ => None
  end.

Definition taskObserver (task : Task) : option nat :=
  match task with
  | eventManagerListen l | eventManagerUnlisten l => Some (QueryListener.observer l)
  | addSnapshotsInSyncListener o | removeSnapshotsInSyncListener o => Some o
  | _ => None
  end.

(** Every queued task refers to a cell and to an observer that exist. *)
Definition wellFormed (fs : FirebaseFirestore.t) : Prop :=
  Forall (fun task =>
            (forall d, taskDeferred task = Some d -> (d < _deferreds fs)%nat)
            /\ (forall o, taskObserver task = Some o -> (o < length (_observers fs))%nat))
         (_queue fs).

(** A registration task and the task that takes it back. *)
Definition takesBack (registration deregistration : Task) : Prop :=
  match registration, deregistration with
  | eventManagerListen l, eventManagerUnlisten l' => l = l'
  | addSnapshotsInSyncListener o, removeSnapshotsInSyncListener o' => o = o'
  | _, _ => False
  end.

(** The steps of [onSnapshot], one by one: the options and the position of
    the first callback; the arguments once an observer object is spread
    into its callbacks; the observer and the query of the listener. *)
Definition selectOptions (args : list Arg) : JsObject.t * nat :=
  match arg_get args 0 with
  | ArgObject o =>
      if negb (isPartialObserver (ArgObject o)) then (o, 1%nat)
      else (JsObject.mk (Some false) None None None, 0%nat)
  | _ => (JsObject.mk (Some false) None None None, 0%nat)
  end.

Definition spreadObserver (args : list Arg) (currArg : nat) : list Arg :=
  match arg_get args currArg with
  | ArgObject userObserver =>
      if isPartialObserver (ArgObject userObserver)
      then arg_set
             (arg_set
                (arg_set args currArg (bind_method (JsObject.next userObserver)))
                (currArg + 1) (bind_method (JsObject.error userObserver)))
             (currArg + 2) (bind_method (JsObject.complete userObserver))
      else args
  | _ => args
  end.

Definition observerFor (target : ListenTarget) (args : list Arg) (currArg : nat)
  : PartialObserver :=
  match target with
  | OnDocument ref =>
      DocumentObserver ref (arg_get args currArg) (arg_get args (currArg + 1))
                       (arg_get args (currArg + 2))
  | OnQuery query =>
      QueryObserver query (arg_get args currArg) (arg_get args (currArg + 1))
                    (arg_get args (currArg + 2))
  end.

Definition queryFor (target : ListenTarget) : InternalQuery.t :=
  match target with
  | OnDocument ref => newQueryForPath (DocumentReference._key ref)
  | OnQuery query => Query._query query
  end.

(** The observer and the listener [onSnapshot] registers on client [fs]. *)
Definition registeredObserver (target : ListenTarget) (args : list Arg) : PartialObserver :=
  observerFor target (spreadObserver args (snd (selectOptions args)))
              (snd (selectOptions args)).

Definition registeredListener (target : ListenTarget) (args : list Arg)
    (fs : FirebaseFirestore.t) : QueryListener.t :=
  QueryListener.mk (queryFor target) (length (_observers fs))
    (ListenOptions.mk (JsObject.includeMetadataChanges (fst (selectOptions args)))).

(** A reader that rejects [undefined] where a document is expected. *)
Definition strictApi : UserDataApi := {|
  UserDataReader := unit;
  newUserDataReader := fun _ => tt;
  applyFirestoreDataConverter := fun _ v _ => Return v;
  parseSetData := fun _ _ _ v _ _ =>
    if is_undefined v
    then Throw (FirestoreError ValidationError "Data must be an object, but it was: undefined")
    else Return (ParsedSetData.mk v);
  parseUpdateData := fun _ _ _ d =>
    Return (ParsedUpdateData.mk ((fun kv => (FieldName (fst kv), snd kv)) <$> d))
|}.

(** The effect of a call that returns: either it has created one cell and
    enqueued one task that settles it, or it has allocated one unmuted
    observer and enqueued one task that registers it. *)
Definition returnEffect (fs fs' : FirebaseFirestore.t) (task : Task) : Prop :=
  _queue fs' = _queue fs ++ [task]
  /\ _terminated fs' = _terminated fs
  /\ ((taskDeferred task = Some (_deferreds fs)
       /\ taskObserver task = None
       /\ _deferreds fs' = S (_deferreds fs)
       /\ _observers fs' = _observers fs)
      \/ (taskObserver task = Some (length (_observers fs))
          /\ taskDeferred task = None
          /\ _deferreds fs' = _deferreds fs
          /\ exists obs, _observers fs' = _observers fs ++ [AsyncObserver.mk obs false])).

(** The effect of a call that throws: the queue, the cells and the
    observers are as they were. *)
Definition throwEffect (fs fs' : FirebaseFirestore.t) : Prop :=
  _queue fs' = _queue fs
  /\ _terminated fs' = _terminated fs
  /\ _deferreds fs' = _deferreds fs
  /\ _observers fs' = _observers fs.

(** * Properties *)

(** ** The monad and the checks *)

Lemma verify_terminated {A} (k : unit -> Call A) fs :
  _terminated fs = true ->
  bind _verifyNotTerminated k fs = (Throw terminatedError, fs).
Proof. intros Ht. unfold bind, _verifyNotTerminated. now rewrite Ht. Qed.

Lemma verify_live {A} (k : unit -> Call A) fs :
  _terminated fs = false ->
  bind _verifyNotTerminated k fs = k tt fs.
Proof. intros Ht. unfold bind, _verifyNotTerminated. now rewrite Ht. Qed.

Lemma newDeferred_bind {A} (k : nat -> Call A) fs :
  bind newDeferred k fs = k (_deferreds fs) (set_deferreds (S (_deferreds fs)) fs).
Proof. reflexivity. Qed.

Lemma newAsyncObserver_bind {A} o (k : nat -> Call A) fs :
  bind (newAsyncObserver o) k fs
  = k (length (_observers fs))
      (set_observers (_observers fs ++ [AsyncObserver.mk o false]) fs).
Proof. reflexivity. Qed.

Lemma enqueue_live {A} task (k : unit -> Call A) fs :
  _terminated fs = false ->
  bind (enqueueAndForget task) k fs = k tt (set_queue (_queue fs ++ [task]) fs).
Proof. intros Ht. unfold bind, enqueueAndForget. now rewrite Ht. Qed.

Lemma enqueue_terminated {A} task (k : unit -> Call A) fs :
  _terminated fs = true ->
  bind (enqueueAndForget task) k fs = (Throw terminatedError, fs).
Proof. intros Ht. unfold bind, enqueueAndForget. now rewrite Ht. Qed.

(** The steps of a call on a client in use. *)
Ltac live Ht :=
  repeat first
    [ rewrite verify_live by exact Ht
    | rewrite newDeferred_bind
    | rewrite newAsyncObserver_bind
    | rewrite enqueue_live by exact Ht ].

Lemma void_throw {A} (m : Call A) fs e fs' :
  m fs = (Throw e, fs') -> void m fs = (Throw e, fs').
Proof. intros Hm. unfold void, bind. now rewrite Hm. Qed.

Lemma void_return {A} (m : Call A) fs a fs' :
  m fs = (Return a, fs') -> void m fs = (Return tt, fs').
Proof. intros Hm. unfold void, bind. now rewrite Hm. Qed.

Lemma bind_lift_throw {A B} (o : Outcome A) (k : A -> Call B) fs e :
  o = Throw e -> bind (lift o) k fs = (Throw e, fs).
Proof. intros ->. reflexivity. Qed.

Lemma bind_lift_return {A B} (o : Outcome A) (k : A -> Call B) fs a :
  o = Return a -> bind (lift o) k fs = k a fs.
Proof. intros ->. reflexivity. Qed.

Lemma validate_cases q :
  validateHasExplicitOrderByForLimitToLast q = Return tt
  \/ exists msg,
      validateHasExplicitOrderByForLimitToLast q = Throw (FirestoreError ValidationError msg).
Proof.
  unfold validateHasExplicitOrderByForLimitToLast.
  destruct (_ && _); [right; eauto | now left].
Qed.

Lemma validate_rejects q :
  hasLimitToLast q = true ->
  InternalQuery.explicitOrderBy q = [] ->
  exists msg,
    validateHasExplicitOrderByForLimitToLast q = Throw (FirestoreError ValidationError msg).
Proof.
  intros Hl Ho. unfold validateHasExplicitOrderByForLimitToLast.
  rewrite Hl, Ho. simpl. eauto.
Qed.

(** The entry points that validate do reject a "last N" query without an
    order term, and enqueue nothing. *)
Lemma getDocs_rejects_unordered_last q fs :
  _terminated fs = false ->
  hasLimitToLast (Query._query q) = true ->
  InternalQuery.explicitOrderBy (Query._query q) = [] ->
  exists msg, getDocs q fs = (Throw (FirestoreError ValidationError msg), fs).
Proof.
  intros Ht Hl Ho. destruct (validate_rejects _ Hl Ho) as [msg Hv].
  exists msg. unfold getDocs. rewrite verify_live by done.
  now apply bind_lift_throw.
Qed.

Lemma onSnapshot_rejects_unordered_last q args fs :
  hasLimitToLast (Query._query q) = true ->
  InternalQuery.explicitOrderBy (Query._query q) = [] ->
  exists msg, onSnapshot (OnQuery q) args fs = (Throw (FirestoreError ValidationError msg), fs).
Proof.
  intros Hl Ho. destruct (validate_rejects _ Hl Ho) as [msg Hv].
  exists msg. unfold onSnapshot.
  destruct (match arg_get args 0 with ArgObject o => _ | _ => _ end) as [options currArg].
  unfold bind at 1. unfold bind at 1. unfold lift. rewrite Hv. reflexivity.
Qed.

(** C1: a "last N" query without an explicit order term is not rejected
    by every query-reading entry point.  [getDocsFromCache] and
    [getDocsFromServer] run no validation: on a client in use, for
    [limitToLast(collection("rooms"), 5)], which the validation rejects,
    each of them returns a promise and enqueues its task. *)
Theorem getDocsFromCache_and_Server_enqueue_unordered_last :
  (exists msg,
      validateHasExplicitOrderByForLimitToLast (Query._query lastFiveRooms)
      = Throw (FirestoreError ValidationError msg))
  /\ (exists p fs',
        getDocsFromCache lastFiveRooms liveClient = (Return p, fs')
        /\ _queue fs' = [executeQueryFromCache (Query._query lastFiveRooms) 0])
  /\ (exists p fs',
        getDocsFromServer lastFiveRooms liveClient = (Return p, fs')
        /\ _queue fs'
           = [executeQueryViaSnapshotListener (Query._query lastFiveRooms) SourceServer 0]).
Proof.
  split; [|split].
  - eexists. reflexivity.
  - do 2 eexists. split; reflexivity.
  - do 2 eexists. split; reflexivity.
Qed.

(** ** A terminated client *)

(** On a terminated client [onSnapshot] fails without touching the client:
    with the terminated-state error, unless the target is a query that the
    order validation rejects, which is reported first. *)
Lemma onSnapshot_terminated target args fs :
  _terminated fs = true ->
  exists e,
    onSnapshot target args fs = (Throw e, fs)
    /\ match target with
       | OnDocument _ => e = terminatedError
       | OnQuery q =>
           match validateHasExplicitOrderByForLimitToLast (Query._query q) with
           | Return _ => e = terminatedError
           | Throw e' => e = e'
           end
       end.
Proof.
  intros Ht. unfold onSnapshot.
  destruct (match arg_get args 0 with ArgObject o => _ | _ => _ end) as [options currArg].
  destruct target as [ref|q].
  - exists terminatedError. split; [|done].
    unfold bind at 1. unfold ret at 1. now rewrite verify_terminated.
  - destruct (validateHasExplicitOrderByForLimitToLast (Query._query q)) as [[]|e'] eqn:Hv.
    + exists terminatedError. split; [|done].
      unfold bind at 1. unfold bind at 1. unfold lift.
      unfold ret at 1. now rewrite verify_terminated.
    + exists e'. split; [|done].
      unfold bind at 1. unfold bind at 1. now unfold lift.
Qed.

(** C2, as the code has it: on a terminated client every public entry
    point fails synchronously and leaves the client as it was (no task is
    enqueued, nothing is allocated).  The failure is the terminated-state
    error, except for [onSnapshot] on a query that the order validation
    rejects: there the validation error is thrown first. *)
Theorem terminated_client_fails_before_enqueue `{api : UserDataApi} ep fs :
  _terminated fs = true ->
  exists e,
    invoke ep fs = (Throw e, fs)
    /\ match ep with
       | CallOnSnapshot (OnQuery q) _ =>
           match validateHasExplicitOrderByForLimitToLast (Query._query q) with
           | Return _ => is_terminated_error e = true
           | Throw _ => is_validation_error e = true
           end
       | _ => is_terminated_error e = true
       end.
Proof.
  intros Ht.
  destruct ep as [ref|ref|ref|q|q|q|ref data options|ref f v more|ref|collRef data
                 |target args|arg];
    try (exists terminatedError; split; [|reflexivity];
         apply void_throw; now apply verify_terminated).
  destruct (onSnapshot_terminated target args fs Ht) as (e & He & Hkind).
  exists e. split; [now apply void_throw|].
  destruct target as [ref|q]; simpl in *; [now subst|].
  destruct (validate_cases (Query._query q)) as [Hv|[msg Hv]]; rewrite Hv in *; now subst.
Qed.

Lemma terminated_client_fails_before_enqueue_witness :
  _terminated terminatedClient = true
  /\ exists e,
      invoke (api := plainApi) (CallGetDoc erosRef) terminatedClient
      = (Throw e, terminatedClient)
      /\ is_terminated_error e = true.
Proof.
  split; [reflexivity|].
  apply (terminated_client_fails_before_enqueue
           (api := plainApi) (CallGetDoc erosRef) terminatedClient).
  reflexivity.
Defined.

(** C2 as stated fails: on a terminated client, [onSnapshot] on
    [limitToLast(collection("rooms"), 5)] throws the validation error, not
    the terminated-state error. *)
Lemma onSnapshot_terminated_throws_validation_error :
  _terminated terminatedClient = true
  /\ exists e,
      invoke (api := plainApi)
             (CallOnSnapshot (OnQuery lastFiveRooms) [ArgFunction 0%nat]) terminatedClient
      = (Throw e, terminatedClient)
      /\ is_terminated_error e = false.
Proof. split; [reflexivity|]. eexists. split; reflexivity. Qed.

(** ** Snapshot conversion *)

(** C8: [convertToDocSnapshot] asserts that the view snapshot holds at
    most one document.  With more than one the result is the failure of an
    internal assertion, not a [FirestoreError]; with at most one it is a
    document snapshot for exactly the referenced key: its existence and
    data are those of the snapshot's entry for that key, and its metadata
    carries the snapshot's [fromCache] and [hasPendingWrites]. *)
Theorem convertToDocSnapshot_asserts_single_document ref snapshot :
  if decide (size (ViewSnapshot.docs snapshot) <= 1)%nat
  then exists s,
      convertToDocSnapshot ref snapshot = Return s
      /\ DocumentSnapshot._key s = DocumentReference._key ref
      /\ DocumentSnapshot.exists_ s
         = bool_decide (is_Some (ViewSnapshot.docs snapshot !! DocumentReference._key ref))
      /\ DocumentSnapshot.data s
         = Document.data <$> (ViewSnapshot.docs snapshot !! DocumentReference._key ref)
      /\ SnapshotMetadata.fromCache (DocumentSnapshot.metadata s)
         = ViewSnapshot.fromCache snapshot
      /\ SnapshotMetadata.hasPendingWrites (DocumentSnapshot.metadata s)
         = ViewSnapshot.hasPendingWrites snapshot
  else exists e,
      convertToDocSnapshot ref snapshot = Throw e
      /\ is_assertion_failure e = true.
Proof.
  unfold convertToDocSnapshot, debugAssert.
  destruct (decide (size (ViewSnapshot.docs snapshot) <= 1)%nat) as [Hle|Hgt].
  - rewrite bool_decide_eq_true_2 by done. simpl.
    eexists. split; [reflexivity|]. simpl. repeat split.
  - rewrite bool_decide_eq_false_2 by done. simpl.
    eexists. split; reflexivity.
Qed.

(** A view snapshot with two documents trips the assertion. *)
Example convertToDocSnapshot_two_documents :
  let d1 := Document.mk ["rooms"; "eros"] JNull false in
  let d2 := Document.mk ["rooms"; "gaia"] JNull false in
  let snapshot :=
    ViewSnapshot.mk (<[["rooms"; "eros"] := d1]> (<[["rooms"; "gaia"] := d2]> ∅)) false false in
  convertToDocSnapshot erosRef snapshot
  = Throw (AssertionFailure "Expected zero or a single result on a document-only query").
Proof. reflexivity. Qed.

(** ** Reading from the cache *)



(** ** Listening *)

(** C10: when no [SnapshotListenOptions] argument is supplied, [onSnapshot]
    registers its listener with [includeMetadataChanges] equal to [false]:
    the call enqueues one [eventManagerListen] task, and the listener of
    that task carries the flag [false]. *)
Theorem onSnapshot_without_options_excludes_metadata_changes target args fs :
  suppliesOptions args = false ->
  _terminated fs = false ->
  targetAccepted target ->
  exists unsubscribe fs' listener,
    onSnapshot target args fs = (Return unsubscribe, fs')
    /\ _queue fs' = _queue fs ++ [eventManagerListen listener]
    /\ ListenOptions.includeMetadataChanges (QueryListener.options listener) = Some false.
Proof.
  intros Hopt Ht Hacc. unfold onSnapshot.
  assert (Hsel : match arg_get args 0 with
                 | ArgObject o =>
                     if negb (isPartialObserver (ArgObject o))
                     then (o, 1%nat)
                     else (JsObject.mk (Some false) None None None, 0%nat)
                 | _ => (JsObject.mk (Some false) None None None, 0%nat)
                 end = (JsObject.mk (Some false) None None None, 0%nat)).
  { unfold suppliesOptions in Hopt.
    destruct (arg_get args 0) as [|f|o]; try reflexivity.
    cbn [typeof_object andb] in Hopt. now rewrite Hopt. }
  rewrite Hsel. clear Hsel.
  destruct target as [ref|q]; simpl in Hacc.
  - unfold bind at 1. unfold ret at 1. live Ht.
    do 3 eexists. split; [reflexivity|]. split; reflexivity.
  - unfold bind at 1. unfold bind at 1. unfold lift. rewrite Hacc.
    unfold ret at 1. live Ht.
    do 3 eexists. split; [reflexivity|]. split; reflexivity.
Qed.

Lemma onSnapshot_without_options_excludes_metadata_changes_witness :
  suppliesOptions [ArgFunction 7%nat] = false
  /\ _terminated liveClient = false
  /\ targetAccepted (OnDocument erosRef)
  /\ exists unsubscribe fs' listener,
      onSnapshot (OnDocument erosRef) [ArgFunction 7%nat] liveClient
      = (Return unsubscribe, fs')
      /\ _queue fs' = _queue liveClient ++ [eventManagerListen listener]
      /\ ListenOptions.includeMetadataChanges (QueryListener.options listener) = Some false.
Proof.
  split; [reflexivity|]. split; [reflexivity|]. split; [exact I|].
  apply (onSnapshot_without_options_excludes_metadata_changes
           (OnDocument erosRef) [ArgFunction 7%nat] liveClient);
    [reflexivity | reflexivity | exact I].
Defined.

(** With options [{ includeMetadataChanges: true }] the listener carries
    the flag [true]; with [{}] it carries no flag. *)
Example onSnapshot_with_options :
  let options b := ArgObject (JsObject.mk b None None None) in
  let registered b :=
    _queue (snd (onSnapshot (OnDocument erosRef) [options b; ArgFunction 7%nat] liveClient)) in
  registered (Some true)
  = [eventManagerListen
       (QueryListener.mk (newQueryForPath ["rooms"; "eros"]) 0 (ListenOptions.mk (Some true)))]
  /\ registered None
     = [eventManagerListen
          (QueryListener.mk (newQueryForPath ["rooms"; "eros"]) 0 (ListenOptions.mk None))].
Proof. split; reflexivity. Qed.

(** ** Writing *)

Lemma executeWrite_eq mutations fs :
  _terminated fs = false ->
  executeWrite mutations fs
  = (Return (Promise.mk (_deferreds fs) Return), afterWrite mutations fs).
Proof. intros Ht. unfold executeWrite. live Ht. reflexivity. Qed.

Section WriteLemmas.
Context `{api : UserDataApi}.

Lemma setDoc_live ref data options fs v parsed :
  _terminated fs = false ->
  applyFirestoreDataConverter (DocumentReference._converter ref) data options = Return v ->
  parseSetData (newUserDataReader fs) "setDoc" (DocumentReference._key ref) v
    (bool_decide (DocumentReference._converter ref <> None)) options = Return parsed ->
  setDoc ref data options fs
  = executeWrite
      (ParsedSetData.toMutations parsed (DocumentReference._key ref) PreconditionNone) fs.
Proof.
  intros Ht Hc Hp. unfold setDoc. rewrite verify_live by done.
  rewrite (bind_lift_return _ _ _ _ Hc).
  unfold bind at 1. unfold firestoreOf.
  now rewrite (bind_lift_return _ _ _ _ Hp).
Qed.

Lemma deleteDoc_live ref fs :
  _terminated fs = false ->
  deleteDoc ref fs
  = executeWrite [DeleteMutation (DocumentReference._key ref) PreconditionNone] fs.
Proof. intros Ht. unfold deleteDoc. now rewrite verify_live. Qed.

Lemma updateDoc_live ref f value more fs parsed :
  _terminated fs = false ->
  parseUpdate fs ref f value more = Return parsed ->
  updateDoc ref f value more fs
  = executeWrite
      (ParsedUpdateData.toMutations parsed (DocumentReference._key ref)
         (PreconditionExists true)) fs.
Proof.
  intros Ht Hp. unfold updateDoc. rewrite verify_live by done.
  unfold bind at 1. unfold firestoreOf.
  now rewrite (bind_lift_return _ _ _ _ Hp).
Qed.

Lemma updateDoc_rejected ref f value more fs e :
  _terminated fs = false ->
  parseUpdate fs ref f value more = Throw e ->
  updateDoc ref f value more fs = (Throw e, fs).
Proof.
  intros Ht Hp. unfold updateDoc. rewrite verify_live by done.
  unfold bind at 1. unfold firestoreOf.
  now rewrite (bind_lift_throw _ _ _ _ Hp).
Qed.

Lemma addDoc_live collRef data fs v parsed :
  _terminated fs = false ->
  applyFirestoreDataConverter (CollectionReference.converter collRef) data None = Return v ->
  parseSetData (newUserDataReader (afterAllocation fs)) "addDoc"
    (DocumentReference._key (allocatedRef collRef fs)) v
    (bool_decide (CollectionReference.converter collRef <> None))
    (Some SetOptions.empty) = Return parsed ->
  addDoc collRef data fs
  = bind (executeWrite
            (ParsedSetData.toMutations parsed
               (DocumentReference._key (allocatedRef collRef fs))
               (PreconditionExists false)))
         (fun written =>
            ret (Promise.then_ written (fun _ => Return (allocatedRef collRef fs))))
         (afterAllocation fs).
Proof.
  intros Ht Hc Hp. unfold addDoc. rewrite verify_live by done.
  unfold bind at 1. unfold doc at 1.
  change (set_autoIds (S (_autoIds fs)) fs) with (afterAllocation fs).
  change (DocumentReference.mk _ _) with (allocatedRef collRef fs).
  rewrite (bind_lift_return _ _ _ _ Hc).
  unfold bind at 1. unfold firestoreOf.
  now rewrite (bind_lift_return _ _ _ _ Hp).
Qed.
End WriteLemmas.

Lemma parseUpdateVarargs_odd `{api : UserDataApi} reader method key field value more :
  Nat.odd (length more) = true ->
  exists msg,
    parseUpdateVarargs reader method key field value more
    = Throw (FirestoreError ValidationError msg).
Proof. intros Hodd. unfold parseUpdateVarargs. rewrite Hodd. eauto. Qed.

Lemma parseUpdateVarargs_no_pair `{api : UserDataApi} reader method key field :
  exists msg,
    parseUpdateVarargs reader method key field JUndefined []
    = Throw (FirestoreError ValidationError msg).
Proof. unfold parseUpdateVarargs. simpl. eauto. Qed.

(** C5: on a client in use, [setDoc] turns the parsed data into a write
    whose mutations carry precondition none (a single set mutation on the
    referenced key), and [deleteDoc] submits exactly one delete mutation
    for the referenced key carrying precondition none. *)
Theorem setDoc_and_deleteDoc_carry_no_precondition
    `{api : UserDataApi} ref data options fs v parsed :
  _terminated fs = false ->
  applyFirestoreDataConverter (DocumentReference._converter ref) data options = Return v ->
  parseSetData (newUserDataReader fs) "setDoc" (DocumentReference._key ref) v
    (bool_decide (DocumentReference._converter ref <> None)) options = Return parsed ->
  (exists p fs' mutations,
      setDoc ref data options fs = (Return p, fs')
      /\ _queue fs' = _queue fs ++ [syncEngineWrite mutations (_deferreds fs)]
      /\ mutations
         = [SetMutation (DocumentReference._key ref) (ParsedSetData.data parsed)
              PreconditionNone]
      /\ Forall (fun m => mutation_precondition m = PreconditionNone) mutations)
  /\ (exists p fs',
        deleteDoc ref fs = (Return p, fs')
        /\ _queue fs'
           = _queue fs
               ++ [syncEngineWrite
                     [DeleteMutation (DocumentReference._key ref) PreconditionNone]
                     (_deferreds fs)]).
Proof.
  intros Ht Hc Hp. split.
  - rewrite (setDoc_live _ _ _ _ _ _ Ht Hc Hp), executeWrite_eq by exact Ht.
    do 3 eexists. split; [reflexivity|]. split; [reflexivity|]. split; [reflexivity|].
    repeat constructor.
  - rewrite (deleteDoc_live _ _ Ht), executeWrite_eq by exact Ht.
    do 2 eexists. split; reflexivity.
Qed.

Lemma setDoc_and_deleteDoc_carry_no_precondition_witness :
  _terminated liveClient = false
  /\ (exists p fs' mutations,
        setDoc (api := plainApi) erosRef (JStr "Eros") None liveClient = (Return p, fs')
        /\ _queue fs' = _queue liveClient ++ [syncEngineWrite mutations (_deferreds liveClient)]
        /\ mutations = [SetMutation ["rooms"; "eros"] (JStr "Eros") PreconditionNone]
        /\ Forall (fun m => mutation_precondition m = PreconditionNone) mutations)
  /\ (exists p fs',
        deleteDoc erosRef liveClient = (Return p, fs')
        /\ _queue fs'
           = _queue liveClient
               ++ [syncEngineWrite [DeleteMutation ["rooms"; "eros"] PreconditionNone]
                     (_deferreds liveClient)]).
Proof.
  split; [reflexivity|].
  apply (setDoc_and_deleteDoc_carry_no_precondition
           (api := plainApi) erosRef (JStr "Eros") None liveClient
           (JStr "Eros") (ParsedSetData.mk (JStr "Eros")));
    reflexivity.
Defined.

(** C3, as the code has it: on a client that has not been terminated,
    [updateDoc(ref, "a.b", 1, "c", 2)] submits a write of exactly two field
    mutations, on [a.b] and on [c], each carrying precondition must-exist;
    and a varargs call with no field/value pair or with an odd number of
    trailing varargs is rejected with a validation error, the client left
    as it was (no task is enqueued). *)
Theorem updateDoc_varargs `{api : UserDataApi} ref fs :
  _terminated fs = false ->
  (exists p fs',
      updateDoc ref (FieldString "a.b") (JNum 1) [JStr "c"; JNum 2] fs = (Return p, fs')
      /\ _queue fs'
         = _queue fs
             ++ [syncEngineWrite
                   [PatchMutation (DocumentReference._key ref) (FieldName "a.b") (JNum 1)
                      (PreconditionExists true);
                    PatchMutation (DocumentReference._key ref) (FieldName "c") (JNum 2)
                      (PreconditionExists true)]
                   (_deferreds fs)])
  /\ (forall f value more,
        isVarargsCall f = true ->
        malformedVarargs value more = true ->
        exists e,
          updateDoc ref f value more fs = (Throw e, fs)
          /\ is_validation_error e = true).
Proof.
  intros Ht. split.
  - rewrite (updateDoc_live ref _ _ _ fs
               (ParsedUpdateData.mk [(FieldName "a.b", JNum 1); (FieldName "c", JNum 2)]) Ht)
      by reflexivity.
    rewrite executeWrite_eq by exact Ht. do 2 eexists. split; reflexivity.
  - intros f value more Hvar Hbad.
    assert (Hrej : exists msg,
               parseUpdate fs ref f value more = Throw (FirestoreError ValidationError msg)).
    { unfold malformedVarargs in Hbad.
      destruct (Nat.odd (length more)) eqn:Hodd.
      - destruct f; try discriminate; now apply parseUpdateVarargs_odd.
      - rewrite orb_false_r in Hbad. apply andb_true_iff in Hbad as [Hu Hm].
        apply bool_decide_eq_true_1 in Hm. subst more.
        destruct value; try discriminate.
        destruct f; try discriminate; apply parseUpdateVarargs_no_pair. }
    destruct Hrej as [msg Hrej].
    exists (FirestoreError ValidationError msg). split; [|reflexivity].
    now apply updateDoc_rejected.
Qed.

Lemma updateDoc_varargs_witness :
  _terminated liveClient = false
  /\ (exists p fs',
        updateDoc (api := plainApi) erosRef (FieldString "a.b") (JNum 1) [JStr "c"; JNum 2]
                  liveClient = (Return p, fs')
        /\ _queue fs'
           = _queue liveClient
               ++ [syncEngineWrite
                     [PatchMutation ["rooms"; "eros"] (FieldName "a.b") (JNum 1)
                        (PreconditionExists true);
                      PatchMutation ["rooms"; "eros"] (FieldName "c") (JNum 2)
                        (PreconditionExists true)]
                     (_deferreds liveClient)])
  /\ exists e,
      updateDoc (api := plainApi) erosRef (FieldString "a") (JNum 1) [JStr "b"] liveClient
      = (Throw e, liveClient)
      /\ is_validation_error e = true.
Proof.
  split; [reflexivity|].
  destruct (updateDoc_varargs (api := plainApi) erosRef liveClient eq_refl) as [Hfirst Hsecond].
  split; [exact Hfirst|].
  apply (Hsecond (FieldString "a") (JNum 1) [JStr "b"]); reflexivity.
Defined.

(** C3 as stated fails on a terminated client: [updateDoc(ref, "a", 1, "b")]
    is then rejected with the terminated-state error, which is thrown
    before the arguments are parsed. *)
Lemma updateDoc_odd_varargs_on_terminated_client :
  isVarargsCall (FieldString "a") = true
  /\ malformedVarargs (JNum 1) [JStr "b"] = true
  /\ exists e,
      updateDoc (api := plainApi) erosRef (FieldString "a") (JNum 1) [JStr "b"]
                terminatedClient
      = (Throw e, terminatedClient)
      /\ is_validation_error e = false.
Proof. split; [reflexivity|]. split; [reflexivity|]. eexists. split; reflexivity. Qed.

Lemma autoId_fresh n m : (n < m)%nat -> autoId n <> autoId m.
Proof.
  intros Hlt Heq. unfold autoId in Heq.
  apply (inj pretty) in Heq. lia.
Qed.

(** C4: on a client in use, [addDoc] first allocates a document key (the
    id is drawn from the key factory before anything is enqueued, and
    differs from every id drawn earlier), then submits one write whose
    mutation is on that key and carries precondition must-not-exist; the
    promise it returns is pending while the write is, is fulfilled with
    the new reference exactly when the write's cell is resolved, and is
    rejected with the write's error when the cell is rejected. *)
Theorem addDoc_allocates_then_writes `{api : UserDataApi} collRef data fs v parsed :
  _terminated fs = false ->
  applyFirestoreDataConverter (CollectionReference.converter collRef) data None = Return v ->
  parseSetData (newUserDataReader (afterAllocation fs)) "addDoc"
    (DocumentReference._key (allocatedRef collRef fs)) v
    (bool_decide (CollectionReference.converter collRef <> None))
    (Some SetOptions.empty) = Return parsed ->
  exists p fs',
    addDoc collRef data fs = (Return p, fs')
    /\ doc collRef fs = (Return (allocatedRef collRef fs), afterAllocation fs)
    /\ _queue (afterAllocation fs) = _queue fs
    /\ (forall n, (n < _autoIds fs)%nat ->
                  autoId n <> autoId (_autoIds fs))
    /\ _queue fs'
       = _queue fs
           ++ [syncEngineWrite
                 [SetMutation (DocumentReference._key (allocatedRef collRef fs))
                    (ParsedSetData.data parsed) (PreconditionExists false)]
                 (_deferreds fs)]
    /\ Promise.deferred p = _deferreds fs
    /\ Promise.state p Pending = Pending
    /\ Promise.state p (Resolved tt) = Resolved (allocatedRef collRef fs)
    /\ (forall e, Promise.state p (Rejected e) = Rejected e)
    /\ (forall s r, Promise.state p s = Resolved r ->
                    s = Resolved tt /\ r = allocatedRef collRef fs).
Proof.
  intros Ht Hc Hp.
  rewrite (addDoc_live collRef data fs v parsed Ht Hc Hp).
  unfold bind at 1. rewrite executeWrite_eq by exact Ht. unfold ret.
  do 2 eexists. split; [reflexivity|].
  split; [reflexivity|]. split; [reflexivity|].
  split; [intros n Hn; now apply autoId_fresh|].
  split; [reflexivity|]. split; [reflexivity|]. split; [reflexivity|].
  split; [reflexivity|]. split; [reflexivity|].
  intros s r Hs. destruct s as [|[]|e]; simpl in Hs; try discriminate.
  split; [reflexivity|]. congruence.
Qed.

Lemma addDoc_allocates_then_writes_witness :
  _terminated liveClient = false
  /\ exists p fs',
      addDoc (api := plainApi) roomsRef (JStr "Eros") liveClient = (Return p, fs')
      /\ _queue fs'
         = [syncEngineWrite
              [SetMutation ["rooms"; "0"] (JStr "Eros") (PreconditionExists false)] 0]
      /\ Promise.state p (Resolved tt) = Resolved (DocumentReference.mk ["rooms"; "0"] None)
      /\ (forall e, Promise.state p (Rejected e) = Rejected e).
Proof.
  split; [reflexivity|].
  destruct (addDoc_allocates_then_writes
              (api := plainApi) roomsRef (JStr "Eros") liveClient
              (JStr "Eros") (ParsedSetData.mk (JStr "Eros")) eq_refl eq_refl eq_refl)
    as (p & fs' & Hadd & _ & _ & _ & Hq & _ & _ & Hres & Hrej & _).
  exists p, fs'. split; [exact Hadd|]. split; [exact Hq|]. split; [exact Hres|exact Hrej].
Defined.

(** ** The settlement of a write *)

Section SyncEngineFacts.
Import SyncEngine.

Lemma cell_settle_other d d' v s :
  d <> d' -> cell (settle d' v s) d = cell s d.
Proof.
  intros Hne. unfold settle.
  destruct (cell s d') eqn:Hc; try reflexivity.
  unfold cell. simpl. now rewrite lookup_insert_ne.
Qed.

Lemma cell_settle_pending d v s :
  cell s d = Pending -> cell (settle d v s) d = v.
Proof.
  intros Hp. unfold settle. rewrite Hp.
  unfold cell. simpl. now rewrite lookup_insert_eq.
Qed.

Lemma commitChannel_settle d v s :
  commitChannel (settle d v s) = commitChannel s.
Proof. unfold settle. now destruct (cell s d). Qed.

Lemma commits_cons r rs s : commits (r :: rs) s = commits rs (commit r s).
Proof. reflexivity. Qed.

(** While earlier writes are reported on, a later write stays where it
    is in the channel and its cell stays pending. *)
Lemma commits_of_earlier_writes d rs :
  forall s earlier later,
    commitChannel s = earlier ++ later ->
    d ∉ (fst <$> earlier) ->
    cell s d = Pending ->
    length rs = length earlier ->
    cell (commits rs s) d = Pending
    /\ commitChannel (commits rs s) = later.
Proof.
  induction rs as [|r rs IH]; intros s earlier later Hch Hnotin Hp Hlen.
  - destruct earlier; [|discriminate]. simpl in Hch. now split.
  - destruct earlier as [|[d0 m0] earlier]; [discriminate|].
    rewrite commits_cons.
    rewrite fmap_cons, not_elem_of_cons in Hnotin. destruct Hnotin as [Hne Hnotin].
    simpl in Hne.
    apply (IH (commit r s) earlier later).
    + unfold commit. rewrite Hch. simpl. now rewrite commitChannel_settle.
    + exact Hnotin.
    + unfold commit. rewrite Hch. simpl.
      rewrite cell_settle_other by done. exact Hp.
    + simpl in Hlen. lia.
Qed.

Lemma commit_of_oldest_write d ms later r s :
  commitChannel s = (d, ms) :: later ->
  cell s d = Pending ->
  cell (commit r s) d = settlementOf r.
Proof.
  intros Hch Hp. unfold commit. rewrite Hch.
  now apply cell_settle_pending.
Qed.
End SyncEngineFacts.


(** C6: on a client in use every write operation funnels its mutations
    into [executeWrite]: [deleteDoc], [setDoc] and [updateDoc] are
    [executeWrite] on the mutations they have built, and [addDoc] is
    [executeWrite] on its mutations, continued with its reference.
    [executeWrite] creates one cell, enqueues one task and returns the
    promise of that cell, which is in the state of the cell at all times.
    When the sync engine runs the task, the mutations reach the local
    cache and the cell stays pending; it stays pending while the commits
    of the writes forwarded earlier are reported; the report on this
    write's own commit settles it: resolved when the commit is
    acknowledged, rejected with the error when it fails. *)
Theorem writes_settle_with_the_remote_commit `{api : UserDataApi} mutations fs s rs r :
  _terminated fs = false ->
  SyncEngine.cell s (_deferreds fs) = Pending ->
  _deferreds fs ∉ (fst <$> SyncEngine.commitChannel s) ->
  length rs = length (SyncEngine.commitChannel s) ->
  (forall ref,
      deleteDoc ref fs
      = executeWrite [DeleteMutation (DocumentReference._key ref) PreconditionNone] fs)
  /\ (forall ref data options v parsed,
         applyFirestoreDataConverter (DocumentReference._converter ref) data options
         = Return v ->
         parseSetData (newUserDataReader fs) "setDoc" (DocumentReference._key ref) v
           (bool_decide (DocumentReference._converter ref <> None)) options
         = Return parsed ->
         setDoc ref data options fs
         = executeWrite
             (ParsedSetData.toMutations parsed (DocumentReference._key ref)
                PreconditionNone) fs)
  /\ (forall ref f value more parsed,
         parseUpdate fs ref f value more = Return parsed ->
         updateDoc ref f value more fs
         = executeWrite
             (ParsedUpdateData.toMutations parsed (DocumentReference._key ref)
                (PreconditionExists true)) fs)
  /\ (forall collRef data v parsed,
         applyFirestoreDataConverter (CollectionReference.converter collRef) data None
         = Return v ->
         parseSetData (newUserDataReader (afterAllocation fs)) "addDoc"
           (DocumentReference._key (allocatedRef collRef fs)) v
           (bool_decide (CollectionReference.converter collRef <> None))
           (Some SetOptions.empty)
         = Return parsed ->
         addDoc collRef data fs
         = bind (executeWrite
                   (ParsedSetData.toMutations parsed
                      (DocumentReference._key (allocatedRef collRef fs))
                      (PreconditionExists false)))
                (fun written =>
                   ret (Promise.then_ written
                          (fun _ => Return (allocatedRef collRef fs))))
                (afterAllocation fs))
  /\ exists p,
      executeWrite mutations fs = (Return p, afterWrite mutations fs)
      /\ _queue (afterWrite mutations fs)
         = _queue fs ++ [syncEngineWrite mutations (_deferreds fs)]
      /\ Promise.deferred p = _deferreds fs
      /\ (forall c, Promise.state p c = c)
      /\ SyncEngine.localCache
           (SyncEngine.runTask (syncEngineWrite mutations (_deferreds fs)) s)
         = SyncEngine.localCache s ++ mutations
      /\ Promise.state p
           (SyncEngine.cell
              (SyncEngine.runTask (syncEngineWrite mutations (_deferreds fs)) s)
              (_deferreds fs))
         = Pending
      /\ Promise.state p
           (SyncEngine.cell
              (SyncEngine.commits rs
                 (SyncEngine.runTask (syncEngineWrite mutations (_deferreds fs)) s))
              (_deferreds fs))
         = Pending
      /\ Promise.state p
           (SyncEngine.cell
              (SyncEngine.commit r
                 (SyncEngine.commits rs
                    (SyncEngine.runTask (syncEngineWrite mutations (_deferreds fs)) s)))
              (_deferreds fs))
         = SyncEngine.settlementOf r.
Proof.
  intros Ht Hp Hnotin Hlen.
  split; [intros ref; now apply deleteDoc_live|].
  split; [intros ref data options v parsed Hc Hparsed; now apply (setDoc_live _ _ _ _ v)|].
  split; [intros ref f value more parsed Hparsed; now apply updateDoc_live|].
  split; [intros collRef data v parsed Hc Hparsed; now apply (addDoc_live _ _ _ v)|].
  exists (Promise.mk (_deferreds fs) Return).
  assert (Hid : forall c : Settlement unit,
             Promise.state (Promise.mk (_deferreds fs) Return) c = c)
    by (intros [| |]; reflexivity).
  split; [now apply executeWrite_eq|]. split; [reflexivity|]. split; [reflexivity|].
  split; [exact Hid|]. split; [reflexivity|].
  rewrite !Hid. simpl SyncEngine.runTask.
  split; [exact Hp|].
  destruct (commits_of_earlier_writes (_deferreds fs) rs
              (SyncEngine.write mutations (_deferreds fs) s)
              (SyncEngine.commitChannel s) [(_deferreds fs, mutations)])
    as [Hstill Hch]; [reflexivity | exact Hnotin | exact Hp | exact Hlen |].
  split; [exact Hstill|].
  now apply (commit_of_oldest_write _ mutations []).
Qed.

Lemma writes_settle_with_the_remote_commit_witness :
  _terminated (FirebaseFirestore.mk false [] 1 [] 0) = false
  /\ SyncEngine.cell
       (SyncEngine.write [DeleteMutation ["rooms"; "gaia"] PreconditionNone] 0
          SyncEngine.empty)
       1%nat = Pending
  /\ deleteDoc erosRef (FirebaseFirestore.mk false [] 1 [] 0)
     = executeWrite [DeleteMutation ["rooms"; "eros"] PreconditionNone]
                    (FirebaseFirestore.mk false [] 1 [] 0)
  /\ exists p,
      executeWrite [DeleteMutation ["rooms"; "eros"] PreconditionNone]
                   (FirebaseFirestore.mk false [] 1 [] 0)
      = (Return p,
         afterWrite [DeleteMutation ["rooms"; "eros"] PreconditionNone]
                    (FirebaseFirestore.mk false [] 1 [] 0))
      /\ Promise.state p
           (SyncEngine.cell
              (SyncEngine.commits [SyncEngine.Acknowledged]
                 (SyncEngine.runTask
                    (syncEngineWrite [DeleteMutation ["rooms"; "eros"] PreconditionNone] 1)
                    (SyncEngine.write [DeleteMutation ["rooms"; "gaia"] PreconditionNone] 0
                       SyncEngine.empty)))
              1%nat)
         = Pending
      /\ Promise.state p
           (SyncEngine.cell
              (SyncEngine.commit (SyncEngine.Failed (FirestoreError RemoteError "denied"))
                 (SyncEngine.commits [SyncEngine.Acknowledged]
                    (SyncEngine.runTask
                       (syncEngineWrite [DeleteMutation ["rooms"; "eros"] PreconditionNone] 1)
                       (SyncEngine.write [DeleteMutation ["rooms"; "gaia"] PreconditionNone] 0
                          SyncEngine.empty))))
              1%nat)
         = Rejected (FirestoreError RemoteError "denied").
Proof.
  split; [reflexivity|]. split; [reflexivity|].
  destruct (writes_settle_with_the_remote_commit
              (api := plainApi)
              [DeleteMutation ["rooms"; "eros"] PreconditionNone]
              (FirebaseFirestore.mk false [] 1 [] 0)
              (SyncEngine.write [DeleteMutation ["rooms"; "gaia"] PreconditionNone] 0
                 SyncEngine.empty)
              [SyncEngine.Acknowledged]
              (SyncEngine.Failed (FirestoreError RemoteError "denied")))
    as (Hdelete & _ & _ & _ & p & Hw & _ & _ & _ & _ & _ & Hpending & Hsettled).
  - reflexivity.
  - reflexivity.
  - simpl. rewrite list_elem_of_singleton. discriminate.
  - reflexivity.
  - split; [exact (Hdelete erosRef)|].
    exists p. split; [exact Hw|]. split; [exact Hpending|exact Hsettled].
Defined.

(** ** Muting *)

Create HintDb observers.

Lemma keeps_ret {A} (a : A) : keepsObservers (ret a).
Proof. intros fs. exists []. simpl. now rewrite app_nil_r. Qed.

Lemma keeps_lift {A} (o : Outcome A) : keepsObservers (lift o).
Proof. intros fs. exists []. simpl. now rewrite app_nil_r. Qed.

Lemma keeps_bind {A B} (m : Call A) (k : A -> Call B) :
  keepsObservers m -> (forall a, keepsObservers (k a)) -> keepsObservers (bind m k).
Proof.
  intros Hm Hk fs. unfold bind.
  destruct (Hm fs) as [extra1 H1].
  destruct (m fs) as [[a|e] fs1]; simpl in H1.
  - destruct (Hk a fs1) as [extra2 H2].
    exists (extra1 ++ extra2). now rewrite H2, H1, app_assoc.
  - now exists extra1.
Qed.

Lemma keeps_verify : keepsObservers _verifyNotTerminated.
Proof.
  intros fs. exists []. unfold _verifyNotTerminated.
  destruct (_terminated fs); simpl; now rewrite app_nil_r.
Qed.

Lemma keeps_firestoreOf : keepsObservers firestoreOf.
Proof. intros fs. exists []. simpl. now rewrite app_nil_r. Qed.

Lemma keeps_newDeferred : keepsObservers newDeferred.
Proof. intros fs. exists []. simpl. now rewrite app_nil_r. Qed.

Lemma keeps_enqueue task : keepsObservers (enqueueAndForget task).
Proof.
  intros fs. exists []. unfold enqueueAndForget.
  destruct (_terminated fs); simpl; now rewrite app_nil_r.
Qed.

Lemma keeps_newAsyncObserver o : keepsObservers (newAsyncObserver o).
Proof. intros fs. now eexists. Qed.

Lemma keeps_doc collRef : keepsObservers (doc collRef).
Proof. intros fs. exists []. simpl. now rewrite app_nil_r. Qed.

#[local] Hint Resolve keeps_ret keeps_lift keeps_verify keeps_firestoreOf keeps_newDeferred
  keeps_enqueue keeps_newAsyncObserver keeps_doc : observers.

Ltac keeps_step :=
  repeat first
    [ apply keeps_bind; [|intros ?]
    | solve [auto with observers] ].

Lemma keeps_executeWrite mutations : keepsObservers (executeWrite mutations).
Proof. unfold executeWrite. keeps_step. Qed.

#[local] Hint Resolve keeps_executeWrite : observers.

Lemma keeps_onSnapshot target args : keepsObservers (onSnapshot target args).
Proof.
  unfold onSnapshot.
  destruct (match arg_get args 0 with ArgObject o => _ | _ => _ end) as [options currArg].
  apply keeps_bind; [destruct target; keeps_step|intros ?]. keeps_step.
Qed.

Lemma keeps_invoke `{api : UserDataApi} ep : keepsObservers (invoke ep).
Proof.
  destruct ep; unfold invoke, void;
    (apply keeps_bind; [|intros ?; apply keeps_ret]);
    try apply keeps_onSnapshot;
    unfold getDoc, getDocFromCache, getDocFromServer, getDocs, getDocsFromCache,
      getDocsFromServer, setDoc, updateDoc, deleteDoc, addDoc, onSnapshotsInSync;
    keeps_step.
Qed.

(** A registration that returns has allocated one observer, unmuted, at
    the next free address, and returns the function that mutes this
    observer and then enqueues the de-registration. *)
Lemma register_returns g fs unsubscribe fs1 :
  register g fs = (Return unsubscribe, fs1) ->
  exists obs task,
    _observers fs1 = _observers fs ++ [AsyncObserver.mk obs false]
    /\ isDeregistration (length (_observers fs)) task
    /\ unsubscribe
       = bind (mute (length (_observers fs))) (fun _ => enqueueAndForget task).
Proof.
  destruct g as [target args|arg]; simpl.
  - unfold onSnapshot.
    destruct (match arg_get args 0 with ArgObject o => _ | _ => _ end) as [options currArg].
    destruct target as [ref|q].
    + unfold bind at 1. unfold ret at 1. unfold bind at 1, _verifyNotTerminated.
      destruct (_terminated fs) eqn:Ht; [discriminate|]. live Ht.
      intros H. inversion H; subst. do 2 eexists. split; [reflexivity|].
      split; [|reflexivity]. reflexivity.
    + unfold bind at 1. unfold bind at 1. unfold lift.
      destruct (validateHasExplicitOrderByForLimitToLast _); [|discriminate].
      unfold ret at 1. unfold bind at 1, _verifyNotTerminated.
      destruct (_terminated fs) eqn:Ht; [discriminate|]. live Ht.
      intros H. inversion H; subst. do 2 eexists. split; [reflexivity|].
      split; [|reflexivity]. reflexivity.
  - unfold onSnapshotsInSync, bind at 1, _verifyNotTerminated.
    destruct (_terminated fs) eqn:Ht; [discriminate|]. live Ht.
    intros H. inversion H; subst. do 2 eexists. split; [reflexivity|].
    split; [|reflexivity]. reflexivity.
Qed.

Section DeliveryFacts.
Import Delivery.
Context `{api : UserDataApi}.

Lemma isMuted_app fs fs' extra o :
  _observers fs' = _observers fs ++ extra ->
  isMuted fs o = true -> isMuted fs' o = true.
Proof.
  unfold isMuted. intros -> Hm.
  destruct (_observers fs !! o) as [a|] eqn:Hl; [|discriminate].
  now rewrite (lookup_app_l_Some _ _ _ _ Hl).
Qed.

Lemma isMuted_keeps {A} (m : Call A) fs o :
  keepsObservers m -> isMuted fs o = true -> isMuted (snd (m fs)) o = true.
Proof. intros Hk Hm. destruct (Hk fs) as [extra He]. eauto using isMuted_app. Qed.

Lemma isMuted_mute fs o o' :
  isMuted fs o = true -> isMuted (snd (mute o' fs)) o = true.
Proof.
  unfold isMuted, mute. simpl. intros Hm.
  destruct (decide (o = o')) as [->|Hne].
  - rewrite list_lookup_alter_eq. destruct (_observers fs !! o'); [reflexivity|discriminate].
  - rewrite list_lookup_alter_ne by done. exact Hm.
Qed.

Lemma isMuted_after_mute fs o :
  (o < length (_observers fs))%nat -> isMuted (snd (mute o fs)) o = true.
Proof.
  intros Hlt. unfold isMuted, mute. simpl.
  rewrite list_lookup_alter_eq.
  destruct (lookup_lt_is_Some_2 _ _ Hlt) as [a ->]. reflexivity.
Qed.

(** Whether the queue accepts the de-registration or refuses it, the
    observers are as [mute] has left them. *)
Lemma cancel_observers fs o task :
  _observers (snd (bind (mute o) (fun _ => enqueueAndForget task) fs))
  = _observers (snd (mute o fs)).
Proof.
  unfold bind, mute, enqueueAndForget. simpl.
  now destruct (_terminated fs).
Qed.

Lemma isMuted_cancel fs o o' task :
  isMuted fs o = true ->
  isMuted (snd (bind (mute o') (fun _ => enqueueAndForget task) fs)) o = true.
Proof.
  intros Hm. pose proof (isMuted_mute fs o o' Hm) as Hm'.
  unfold isMuted in *. now rewrite cancel_observers.
Qed.

(** Once muted, an observer stays muted whatever happens next. *)
Lemma step_keeps_muted a r o :
  isMuted (client r) o = true -> isMuted (client (step a r)) o = true.
Proof.
  intros Hm. destruct a as [o' ev|i| |ep|o' task| ]; simpl.
  - unfold emit. destruct (_observers (client r) !! o') as [a|]; [|exact Hm].
    now destruct (AsyncObserver.muted a).
  - unfold deliver. destruct (scheduled r !! i) as [[o' ev]|]; [|exact Hm].
    destruct (_observers (client r) !! o') as [a|]; [|exact Hm].
    destruct (AsyncObserver.muted a); [exact Hm|].
    now destruct (handler _ _).
  - exact Hm.
  - apply isMuted_keeps; [apply keeps_invoke|exact Hm].
  - now apply isMuted_cancel.
  - exact Hm.
Qed.

Lemma invocationsOf_snoc o r sched o' f ev :
  o' <> o ->
  invocationsOf o (mk (client r) sched (invocations r ++ [(o', f, ev)]))
  = invocationsOf o r.
Proof.
  intros Hne. unfold invocationsOf. simpl.
  rewrite filter_app, filter_cons_False by (simpl; congruence).
  now rewrite filter_nil, app_nil_r.
Qed.

(** No step invokes a callback of a muted observer. *)
Lemma step_keeps_invocations a r o :
  isMuted (client r) o = true -> invocationsOf o (step a r) = invocationsOf o r.
Proof.
  intros Hm. destruct a as [o' ev|i| |ep|o' task| ]; simpl; try reflexivity.
  - unfold emit. destruct (_observers (client r) !! o') as [a|]; [|reflexivity].
    now destruct (AsyncObserver.muted a).
  - unfold deliver. destruct (scheduled r !! i) as [[o' ev]|]; [|reflexivity].
    destruct (_observers (client r) !! o') as [a|] eqn:Hl; [|reflexivity].
    destruct (AsyncObserver.muted a) eqn:Hma; [reflexivity|].
    destruct (handler _ _) as [f|]; [|reflexivity].
    apply invocationsOf_snoc. intros ->.
    unfold isMuted in Hm. rewrite Hl in Hm. congruence.
Qed.

Lemma run_keeps_muted acts : forall r o,
  isMuted (client r) o = true ->
  isMuted (client (run acts r)) o = true
  /\ invocationsOf o (run acts r) = invocationsOf o r.
Proof.
  induction acts as [|a acts IH]; intros r o Hm; [now split|].
  change (run (a :: acts) r) with (run acts (step a r)).
  destruct (IH (step a r) o (step_keeps_muted a r o Hm)) as [Hm' Hinv].
  split; [exact Hm'|]. rewrite Hinv. now apply step_keeps_invocations.
Qed.

(** The heap of observers never shrinks. *)
Lemma step_observers_length a r :
  (length (_observers (client r)) <= length (_observers (client (step a r))))%nat.
Proof.
  destruct a as [o' ev|i| |ep|o' task| ]; simpl.
  - unfold emit. destruct (_observers (client r) !! o') as [a|]; [|lia].
    destruct (AsyncObserver.muted a); simpl; lia.
  - unfold deliver. destruct (scheduled r !! i) as [[o' ev]|]; [|lia].
    destruct (_observers (client r) !! o') as [a|]; [|simpl; lia].
    destruct (AsyncObserver.muted a); [simpl; lia|].
    destruct (handler _ _); simpl; lia.
  - lia.
  - destruct (keeps_invoke ep (client r)) as [extra He].
    rewrite He, length_app. lia.
  - rewrite cancel_observers. unfold mute. simpl. rewrite length_alter. lia.
  - lia.
Qed.

Lemma run_observers_length acts : forall r,
  (length (_observers (client r)) <= length (_observers (client (run acts r))))%nat.
Proof.
  induction acts as [|a acts IH]; intros r; [simpl; lia|].
  change (run (a :: acts) r) with (run acts (step a r)).
  pose proof (step_observers_length a r). pose proof (IH (step a r)). lia.
Qed.
End DeliveryFacts.

(** C7: the function returned by [onSnapshot] or [onSnapshotsInSync] mutes
    the wrapped observer first and only then hands the de-registration to
    the queue.  Whatever happened between the registration and the call
    (the client torn down included), right after the call the observer is
    muted: on a client in use every task queued before is still queued,
    with the de-registration behind them; on a client torn down in the
    meantime the queue refuses the de-registration and the call fails, the
    observer muted all the same.  The deliveries scheduled before are
    still scheduled, and from then on no callback of this observer is
    invoked, whatever happens next (the scheduled deliveries running, new
    events, tasks, other calls); calling the function again invokes none
    either. *)
Theorem unsubscribe_mutes_at_once
    `{api : UserDataApi} g fs unsubscribe fs1 r before after again :
  register g fs = (Return unsubscribe, fs1) ->
  Delivery.client r = fs1 ->
  exists task,
    isDeregistration (length (_observers fs)) task
    /\ unsubscribe
       = bind (mute (length (_observers fs))) (fun _ => enqueueAndForget task)
    /\ Delivery.isMuted
         (Delivery.client (Delivery.call unsubscribe (Delivery.run before r)))
         (length (_observers fs)) = true
    /\ fst (unsubscribe (Delivery.client (Delivery.run before r)))
       = (if _terminated (Delivery.client (Delivery.run before r))
          then Throw terminatedError
          else Return tt)
    /\ _queue (Delivery.client (Delivery.call unsubscribe (Delivery.run before r)))
       = (if _terminated (Delivery.client (Delivery.run before r))
          then _queue (Delivery.client (Delivery.run before r))
          else _queue (Delivery.client (Delivery.run before r)) ++ [task])
    /\ Delivery.scheduled (Delivery.call unsubscribe (Delivery.run before r))
       = Delivery.scheduled (Delivery.run before r)
    /\ Delivery.invocationsOf (length (_observers fs))
         (Delivery.run after (Delivery.call unsubscribe (Delivery.run before r)))
       = Delivery.invocationsOf (length (_observers fs)) (Delivery.run before r)
    /\ Delivery.invocationsOf (length (_observers fs))
         (Delivery.run again
            (Delivery.call unsubscribe
               (Delivery.run after
                  (Delivery.call unsubscribe (Delivery.run before r)))))
       = Delivery.invocationsOf (length (_observers fs)) (Delivery.run before r).
Proof.
  intros Hreg Hr.
  destruct (register_returns g fs unsubscribe fs1 Hreg) as (obs & task & Hobs & Htask & Hu).
  exists task. split; [exact Htask|]. split; [exact Hu|].
  set (o := length (_observers fs)) in *.
  set (r1 := Delivery.run before r).
  assert (Hlt : (o < length (_observers (Delivery.client r1)))%nat).
  { pose proof (run_observers_length before r) as Hle. fold r1 in Hle.
    rewrite Hr, Hobs, length_app in Hle. simpl in Hle. lia. }
  assert (Hcall : forall r', Delivery.call unsubscribe r'
                             = Delivery.step (Delivery.Cancel o task) r').
  { intros r'. now rewrite Hu. }
  assert (Hm : Delivery.isMuted (Delivery.client (Delivery.call unsubscribe r1)) o = true).
  { rewrite Hu. unfold Delivery.call, Delivery.isMuted. simpl Delivery.client.
    rewrite cancel_observers. now apply isMuted_after_mute. }
  split; [exact Hm|].
  split.
  { rewrite Hu. unfold bind, mute, enqueueAndForget. simpl.
    now destruct (_terminated (Delivery.client r1)). }
  split.
  { rewrite Hu. unfold Delivery.call, bind, mute, enqueueAndForget. simpl.
    now destruct (_terminated (Delivery.client r1)). }
  split; [reflexivity|].
  destruct (run_keeps_muted after _ o Hm) as [Hm2 Hinv2].
  split; [exact Hinv2|].
  set (r2 := Delivery.run after (Delivery.call unsubscribe r1)) in *.
  assert (Hm3 : Delivery.isMuted (Delivery.client (Delivery.call unsubscribe r2)) o = true).
  { rewrite Hcall. now apply step_keeps_muted. }
  destruct (run_keeps_muted again _ o Hm3) as [_ Hinv3].
  rewrite Hinv3, Hcall, step_keeps_invocations by exact Hm2.
  exact Hinv2.
Qed.

Lemma unsubscribe_mutes_at_once_witness :
  register (RegisterSnapshot (OnDocument erosRef) [ArgFunction 7%nat]) liveClient
  = (Return erosUnsubscribe, erosListening)
  /\ Delivery.invocationsOf 0
       (Delivery.run (api := plainApi)
          [Delivery.Deliver 0; Delivery.RunTask; Delivery.Emit 0 Delivery.NextEvent;
           Delivery.Deliver 0]
          (Delivery.call erosUnsubscribe
             (Delivery.run (api := plainApi)
                [Delivery.RunTask; Delivery.Emit 0 Delivery.NextEvent]
                (Delivery.start erosListening))))
     = [].
Proof.
  split; [reflexivity|].
  destruct (unsubscribe_mutes_at_once
              (api := plainApi)
              (RegisterSnapshot (OnDocument erosRef) [ArgFunction 7%nat])
              liveClient erosUnsubscribe erosListening (Delivery.start erosListening)
              [Delivery.RunTask; Delivery.Emit 0 Delivery.NextEvent]
              [Delivery.Deliver 0; Delivery.RunTask; Delivery.Emit 0 Delivery.NextEvent;
               Delivery.Deliver 0]
              [] eq_refl eq_refl)
    as (task & _ & _ & _ & _ & _ & _ & Hafter & _).
  exact Hafter.
Defined.

(** Without the call the scheduled delivery does invoke the callback. *)
Example delivery_to_unmuted_observer :
  Delivery.invocationsOf 0
    (Delivery.run (api := plainApi)
       [Delivery.RunTask; Delivery.Emit 0 Delivery.NextEvent; Delivery.Deliver 0]
       (Delivery.start erosListening))
  = [(0%nat, 7%nat, Delivery.NextEvent)].
Proof. reflexivity. Qed.

(** The second call of the function enqueues a second de-registration. *)
Example unsubscribe_twice_enqueues_twice :
  _queue (Delivery.client
            (Delivery.call erosUnsubscribe
               (Delivery.call erosUnsubscribe (Delivery.start erosListening))))
  = [eventManagerListen erosListener;
     eventManagerUnlisten erosListener;
     eventManagerUnlisten erosListener].
Proof. reflexivity. Qed.

(** On a client torn down after a delivery was scheduled, the call is
    refused by the queue and still mutes: the delivery invokes nothing. *)
Example unsubscribe_after_termination :
  let torn :=
    Delivery.run (api := plainApi)
      [Delivery.RunTask; Delivery.Emit 0 Delivery.NextEvent; Delivery.Terminate]
      (Delivery.start erosListening) in
  fst (erosUnsubscribe (Delivery.client torn)) = Throw terminatedError
  /\ Delivery.isMuted (Delivery.client (Delivery.call erosUnsubscribe torn)) 0 = true
  /\ _queue (Delivery.client (Delivery.call erosUnsubscribe torn)) = []
  /\ Delivery.invocationsOf 0
       (Delivery.run (api := plainApi) [Delivery.Deliver 0]
          (Delivery.call erosUnsubscribe torn))
     = [].
Proof. repeat split. Qed.

(** * Further properties of the code *)

(** ** The credential conversion *)

Section CredentialFacts.
Import AuthCompat.

Ltac decide_ids :=
  repeat match goal with
         | |- context [bool_decide ?P] => destruct (bool_decide_reflect P)
         end.

(** X1: the value [credentialFromResponse] returns is [null] exactly when
    there is no token response; or the response is phone-shaped and the
    phone provider returns [null]; or, for a response that is not
    phone-shaped, the provider id is missing, empty or the password
    provider, or the [switch] selects a provider that returns [null], or
    it selects none and the response carries no truthy access token,
    token secret, id token or pending token. *)
Theorem credentialFromResponse_null_iff {C} (impl : AuthProviders.t C) ids uc :
  AuthCompat_returned impl (credentialFromResponse ids uc) = None
  <-> match UserCredential._tokenResponse uc with
      | None => True
      | Some response =>
          if isPhoneResponse response
          then AuthProviders.credentialFromResult impl PhoneAuthProvider uc = None
          else match UserCredential.providerId uc with
               | None => True
               | Some providerId =>
                   providerId = ""
                   \/ providerId = ProviderId.PASSWORD ids
                   \/ match AuthCompat_switched ids providerId with
                      | Some p => AuthProviders.credentialFromResult impl p uc = None
                      | None => hasToken response = false
                      end
               end
      end.
Proof.
  unfold credentialFromResponse, isPhoneResponse, hasToken, AuthCompat_switched.
  destruct (UserCredential._tokenResponse uc) as [response|]; [|done].
  destruct (hasProperty "temporaryProof" response && hasProperty "phoneNumber" response);
    [reflexivity|].
  destruct (UserCredential.providerId uc) as [providerId|]; [|done].
  decide_ids; simpl;
    try (split; [intros _; auto|reflexivity]);
    try (split; [intros H; right; right; exact H|intros [?|[?|H]]; congruence]).
  destruct (truthyValue (property "oauthAccessToken" response)),
           (truthyValue (property "oauthTokenSecret" response)),
           (truthyValue (property "oauthIdToken" response)),
           (truthyValue (property "pendingToken" response)); simpl;
    try (split; [discriminate|intros [?|[?|?]]; congruence]).
  split; [intros _; auto|reflexivity].
Qed.

(** A provider that returns [null] makes the conversion return [null]. *)
Example credentialFromResponse_null_from_provider :
  AuthCompat_returned githubLess
    (credentialFromResponse providerIds
       (UserCredential.mk (Some "github.com") (Some ∅) "signIn" 1))
  = None
  /\ AuthCompat_returned githubLess
       (credentialFromResponse providerIds
          (UserCredential.mk (Some "google.com") (Some ∅) "signIn" 1))
     = Some "credential".
Proof. split; reflexivity. Qed.

(** X2: the conversion ends in [PhoneAuthProvider.credentialFromResult]
    exactly when the token response has both a [temporaryProof] and a
    [phoneNumber] property: then it does so whatever the provider id is
    (missing, the password provider, or a provider with a case of its
    own), and no other response is ever handed to the phone provider. *)
Theorem credentialFromResponse_phone_iff ids uc :
  credentialFromResponse ids uc = CredentialFromResult PhoneAuthProvider uc
  <-> exists response,
      UserCredential._tokenResponse uc = Some response
      /\ isPhoneResponse response = true.
Proof.
  unfold credentialFromResponse, isPhoneResponse.
  destruct (UserCredential._tokenResponse uc) as [response|];
    [|split; [discriminate|intros (? & ? & _); discriminate]].
  destruct (hasProperty "temporaryProof" response && hasProperty "phoneNumber" response)
    eqn:Hphone.
  - split; [eauto|reflexivity].
  - split; [|intros (r & Hr & Hp); injection Hr as <-; congruence].
    destruct (UserCredential.providerId uc) as [providerId|]; [|discriminate].
    decide_ids; simpl; try discriminate.
    match goal with |- (if ?c then _ else _) = _ -> _ => destruct c end; discriminate.
Qed.

(** X3: when the constants of [ProviderId] are pairwise different and not
    empty, the conversion ends in the [credentialFromResult] of Google,
    Facebook, Github or Twitter exactly when the response is not
    phone-shaped and the provider id is that provider's constant; the
    tokens of the response play no part, so a response without any token
    is still handed to the provider. *)
Theorem credentialFromResponse_builtin_iff ids uc p id :
  AuthCompat_distinctIds ids ->
  AuthCompat_idOf ids p = Some id ->
  credentialFromResponse ids uc = CredentialFromResult p uc
  <-> (exists response,
        UserCredential._tokenResponse uc = Some response
        /\ isPhoneResponse response = false)
      /\ UserCredential.providerId uc = Some id.
Proof.
  unfold AuthCompat_distinctIds, builtinIds. intros Hnd Hid.
  repeat (apply NoDup_cons in Hnd as [? Hnd]).
  repeat match goal with
         | H : _ ∉ _ :: _ |- _ => apply not_elem_of_cons in H as [? H]
         end.
  unfold credentialFromResponse, isPhoneResponse.
  destruct (UserCredential._tokenResponse uc) as [response|];
    [|split; [discriminate|intros [(? & ? & _) _]; discriminate]].
  destruct (hasProperty "temporaryProof" response && hasProperty "phoneNumber" response)
    eqn:Hphone.
  - split; [|intros [(r & Hr & Hp) _]; injection Hr as <-; congruence].
    destruct p; simpl in Hid; congruence.
  - destruct (UserCredential.providerId uc) as [providerId|];
      [|split; [discriminate|intros [_ ?]; discriminate]].
    destruct p; simpl in Hid; [discriminate| | | |];
      injection Hid as <-;
      decide_ids; simpl; subst;
      try (split; [discriminate|intros [_ ?]; congruence]);
      try (split; [intros _; eauto|reflexivity]);
      try (match goal with |- (if ?c then _ else _) = _ <-> _ => destruct c end;
           split; first [discriminate|intros [_ ?]; congruence]).
Qed.

Lemma credentialFromResponse_builtin_iff_witness :
  AuthCompat_distinctIds providerIds
  /\ AuthCompat_idOf providerIds GithubAuthProvider = Some "github.com"
  /\ credentialFromResponse providerIds
       (UserCredential.mk (Some "github.com") (Some ∅) "signIn" 1)
     = CredentialFromResult GithubAuthProvider
         (UserCredential.mk (Some "github.com") (Some ∅) "signIn" 1).
Proof.
  assert (Hd : AuthCompat_distinctIds providerIds).
  { unfold AuthCompat_distinctIds. refine (bool_decide_unpack _ _). vm_compute. exact I. }
  split; [exact Hd|]. split; [reflexivity|].
  apply (credentialFromResponse_builtin_iff providerIds
           (UserCredential.mk (Some "github.com") (Some ∅) "signIn" 1)
           GithubAuthProvider "github.com" Hd eq_refl).
  split; [exists ∅; split; reflexivity|reflexivity].
Defined.
(** X4: the conversion builds a generic OAuth credential exactly when the
    response is not phone-shaped, the provider id is not empty, not the
    password provider and none of the four providers with a case of
    their own, and one of the four tokens is truthy; the credential is
    built for that provider id from the response's id token, access token
    and nonce, and from nothing else. *)
Theorem credentialFromResponse_oauth_iff ids uc providerId idToken accessToken rawNonce :
  credentialFromResponse ids uc
  = OAuthProviderCredential providerId idToken accessToken rawNonce
  <-> exists response,
      UserCredential._tokenResponse uc = Some response
      /\ isPhoneResponse response = false
      /\ UserCredential.providerId uc = Some providerId
      /\ providerId <> ""
      /\ providerId <> ProviderId.PASSWORD ids
      /\ (providerId ∉ builtinIds ids)
      /\ hasToken response = true
      /\ idToken = property "oauthIdToken" response
      /\ accessToken = property "oauthAccessToken" response
      /\ rawNonce = property "nonce" response.
Proof.
  unfold credentialFromResponse, isPhoneResponse, hasToken, builtinIds.
  destruct (UserCredential._tokenResponse uc) as [response|];
    [|split; [discriminate|intros (? & ? & _); discriminate]].
  destruct (hasProperty "temporaryProof" response && hasProperty "phoneNumber" response)
    eqn:Hphone.
  - split; [discriminate|intros (r & Hr & Hp & _); injection Hr as <-; congruence].
  - destruct (UserCredential.providerId uc) as [pid|];
      [|split; [discriminate|intros (? & _ & _ & ? & _); discriminate]].
    split.
    + decide_ids; simpl; try discriminate.
      destruct (truthyValue (property "oauthAccessToken" response)) eqn:Ha,
               (truthyValue (property "oauthTokenSecret" response)) eqn:Hs,
               (truthyValue (property "oauthIdToken" response)) eqn:Hi,
               (truthyValue (property "pendingToken" response)) eqn:Hp;
        simpl; try discriminate;
        intros Heq; injection Heq as <- <- <- <-;
        exists response; rewrite ?Ha, ?Hs, ?Hi, ?Hp, !not_elem_of_cons;
        repeat split; try assumption; apply not_elem_of_nil.
    + intros (r & Hr & _ & Hpid & Hne & Hnp & Hnb & Htok & -> & -> & ->).
      injection Hr as <-. injection Hpid as ->.
      rewrite !not_elem_of_cons in Hnb. destruct Hnb as (? & ? & ? & ? & _).
      decide_ids; try congruence. simpl.
      destruct (truthyValue (property "oauthAccessToken" response)),
               (truthyValue (property "oauthTokenSecret" response)),
               (truthyValue (property "oauthIdToken" response)),
               (truthyValue (property "pendingToken" response));
        simpl in *; congruence.
Qed.

(** X5: a generic OAuth credential is built even when the response has
    neither an id token nor an access token: for a provider without a case
    of its own, a response whose only truthy token is the token secret or
    the pending token yields a credential whose id token and access token
    are both falsy. *)
Theorem credentialFromResponse_oauth_without_id_or_access_token ids uc response providerId :
  UserCredential._tokenResponse uc = Some response ->
  isPhoneResponse response = false ->
  UserCredential.providerId uc = Some providerId ->
  providerId <> "" ->
  providerId <> ProviderId.PASSWORD ids ->
  providerId ∉ builtinIds ids ->
  truthyValue (property "oauthIdToken" response) = false ->
  truthyValue (property "oauthAccessToken" response) = false ->
  truthyValue (property "oauthTokenSecret" response)
  || truthyValue (property "pendingToken" response) = true ->
  exists idToken accessToken rawNonce,
    credentialFromResponse ids uc
    = OAuthProviderCredential providerId idToken accessToken rawNonce
    /\ truthyValue idToken = false
    /\ truthyValue accessToken = false.
Proof.
  intros Hr Hphone Hpid Hne Hnp Hnb Hi Ha Hsp.
  exists (property "oauthIdToken" response), (property "oauthAccessToken" response),
         (property "nonce" response).
  split; [|split; assumption].
  unfold credentialFromResponse. rewrite Hr.
  unfold isPhoneResponse in Hphone. rewrite Hphone, Hpid.
  unfold builtinIds in Hnb. rewrite !not_elem_of_cons in Hnb.
  destruct Hnb as (? & ? & ? & ? & _).
  decide_ids; try congruence. simpl.
  rewrite Ha, Hi. simpl.
  destruct (truthyValue (property "oauthTokenSecret" response)); [reflexivity|].
  simpl in Hsp. now rewrite Hsp.
Qed.

Lemma credentialFromResponse_oauth_without_id_or_access_token_witness :
  exists idToken accessToken rawNonce,
    credentialFromResponse providerIds
      (UserCredential.mk (Some "saml.acme") (Some {["pendingToken" := JStr "p1"]}) "signIn" 1)
    = OAuthProviderCredential "saml.acme" idToken accessToken rawNonce
    /\ truthyValue idToken = false
    /\ truthyValue accessToken = false.
Proof.
  apply (credentialFromResponse_oauth_without_id_or_access_token providerIds
           (UserCredential.mk (Some "saml.acme") (Some {["pendingToken" := JStr "p1"]})
              "signIn" 1)
           {["pendingToken" := JStr "p1"]} "saml.acme");
    try reflexivity; try discriminate.
  unfold builtinIds. simpl. rewrite !not_elem_of_cons.
  repeat split; try discriminate. apply not_elem_of_nil.
Defined.

(** X6: [convertComfirmationResult] keeps the verification id and calls
    [confirm] detached from the result it came from.  A synchronous throw
    of the detached call is thrown by the converted [confirm]; a promise
    it returns is converted by [convertCredential]; what [confirm] does
    when called on its object plays no part, so a [confirm] that needs its
    object fails in the converted result even where [result.confirm(code)]
    succeeds. *)
Theorem convertComfirmationResult_detaches_confirm ids result code :
  exists converted,
    convertComfirmationResult ids (Resolved result) = Resolved converted
    /\ CompatConfirmationResult.verificationId converted
       = ConfirmationResult.verificationId result
    /\ (forall e,
           ConfirmationResult.confirm result Detached code = Throw e ->
           CompatConfirmationResult.confirm converted code = Throw e)
    /\ (forall credentialPromise,
           ConfirmationResult.confirm result Detached code = Return credentialPromise ->
           CompatConfirmationResult.confirm converted code
           = Return (convertCredential ids credentialPromise))
    /\ (forall other converted',
           ConfirmationResult.confirm other Detached code
           = ConfirmationResult.confirm result Detached code ->
           convertComfirmationResult ids (Resolved other) = Resolved converted' ->
           CompatConfirmationResult.confirm converted' code
           = CompatConfirmationResult.confirm converted code).
Proof.
  eexists. split; [reflexivity|]. split; [reflexivity|]. simpl.
  split; [intros e ->; reflexivity|].
  split; [intros credentialPromise ->; reflexivity|].
  intros other converted' Hsame Hconv. injection Hconv as <-. simpl.
  now rewrite Hsame.
Qed.

(** A [confirm] that needs its object: called on the result it resolves,
    through the converted result it throws. *)
Example convertComfirmationResult_loses_the_receiver :
  (exists uc, ConfirmationResult.callConfirm phoneConfirmation "123456" = Return (Resolved uc))
  /\ exists converted,
      convertComfirmationResult providerIds (Resolved phoneConfirmation) = Resolved converted
      /\ CompatConfirmationResult.confirm converted "123456"
         = Throw (AssertionFailure "Cannot read properties of undefined").
Proof. split; [eexists; reflexivity|]. eexists. split; reflexivity. Qed.
End CredentialFacts.

(** ** What a call does to the client *)

Ltac solve_return :=
  unfold enqueueAndForget, newDeferred, newAsyncObserver; simpl;
  match goal with H : _terminated _ = false |- _ => rewrite ?H end; simpl;
  intros; eexists; split; [reflexivity|]; split; [simpl; congruence|];
  first [ left; repeat split; reflexivity
        | right; split; [reflexivity|]; split; [reflexivity|];
          split; [reflexivity|]; eexists; reflexivity ].

Ltac solve_throw := repeat split; first [reflexivity | simpl; congruence].

Lemma invoke_effect `{api : UserDataApi} ep fs :
  match invoke ep fs with
  | (Return _, fs') => exists task, returnEffect fs fs' task
  | (Throw _, fs') => throwEffect fs fs'
  end.
Proof.
  unfold returnEffect, throwEffect.
  destruct ep as [ref|ref|ref|q|q|q|ref data options|ref f v more|ref|collRef data
                 |target args|arg]; unfold invoke, void.
  - unfold getDoc, bind, _verifyNotTerminated.
    destruct (_terminated fs) eqn:Ht; [solve_throw|solve_return].
  - unfold getDocFromCache, bind, _verifyNotTerminated.
    destruct (_terminated fs) eqn:Ht; [solve_throw|solve_return].
  - unfold getDocFromServer, bind, _verifyNotTerminated.
    destruct (_terminated fs) eqn:Ht; [solve_throw|solve_return].
  - unfold getDocs, bind, _verifyNotTerminated, lift.
    destruct (_terminated fs) eqn:Ht; [solve_throw|].
    destruct (validateHasExplicitOrderByForLimitToLast _); [solve_return|solve_throw].
  - unfold getDocsFromCache, bind, _verifyNotTerminated.
    destruct (_terminated fs) eqn:Ht; [solve_throw|solve_return].
  - unfold getDocsFromServer, bind, _verifyNotTerminated.
    destruct (_terminated fs) eqn:Ht; [solve_throw|solve_return].
  - unfold setDoc, executeWrite, bind, _verifyNotTerminated, lift, firestoreOf.
    destruct (_terminated fs) eqn:Ht; [solve_throw|].
    destruct (applyFirestoreDataConverter _ _ _); [|solve_throw].
    destruct (parseSetData _ _ _ _ _ _); [solve_return|solve_throw].
  - unfold updateDoc, executeWrite, bind, _verifyNotTerminated, lift, firestoreOf.
    destruct (_terminated fs) eqn:Ht; [solve_throw|].
    destruct (match f with FieldString _ => _ | _ => _ end); [solve_return|solve_throw].
  - unfold deleteDoc, executeWrite, bind, _verifyNotTerminated.
    destruct (_terminated fs) eqn:Ht; [solve_throw|solve_return].
  - unfold addDoc, executeWrite, bind, _verifyNotTerminated, lift, firestoreOf, doc.
    destruct (_terminated fs) eqn:Ht; [solve_throw|].
    destruct (applyFirestoreDataConverter _ _ _); [|solve_throw].
    destruct (parseSetData _ _ _ _ _ _); [solve_return|solve_throw].
  - unfold onSnapshot.
    destruct (match arg_get args 0 with ArgObject o => _ | _ => _ end) as [options currArg].
    destruct target as [ref|q]; unfold bind, ret, lift, _verifyNotTerminated.
    + destruct (_terminated fs) eqn:Ht; [solve_throw|solve_return].
    + destruct (validateHasExplicitOrderByForLimitToLast _); [|solve_throw].
      destruct (_terminated fs) eqn:Ht; [solve_throw|solve_return].
  - unfold onSnapshotsInSync, bind, _verifyNotTerminated.
    destruct (_terminated fs) eqn:Ht; [solve_throw|solve_return].
Qed.

(** X7: whatever the entry point and its arguments, a call that returns
    has put exactly one task on the queue, behind the tasks that were
    there; a call that throws has put none, has created no cell and has
    allocated no observer. *)
Theorem entry_point_enqueues_once_or_throws `{api : UserDataApi} ep fs :
  match invoke ep fs with
  | (Return _, fs') => exists task, _queue fs' = _queue fs ++ [task]
  | (Throw _, fs') =>
      _queue fs' = _queue fs
      /\ _deferreds fs' = _deferreds fs
      /\ _observers fs' = _observers fs
  end.
Proof.
  pose proof (invoke_effect ep fs) as Heff.
  destruct (invoke ep fs) as [[[]|e] fs'].
  - destruct Heff as (task & Hq & _). now exists task.
  - destruct Heff as (Hq & _ & Hd & Ho). now repeat split.
Qed.

(** X8: the entry points keep the client well formed (every queued task
    refers to a cell and to an observer that exist), and the task a call
    enqueues refers to a cell, or to an observer, that no task queued
    before refers to: two calls never share a [Deferred] or an
    [AsyncObserver]. *)
Theorem entry_point_keeps_well_formed `{api : UserDataApi} ep fs :
  wellFormed fs ->
  wellFormed (snd (invoke ep fs))
  /\ forall task,
      _queue (snd (invoke ep fs)) = _queue fs ++ [task] ->
      Forall (fun earlier =>
                (forall d, taskDeferred task = Some d -> taskDeferred earlier <> Some d)
                /\ (forall o, taskObserver task = Some o -> taskObserver earlier <> Some o))
             (_queue fs).
Proof.
  intros Hwf. pose proof (invoke_effect ep fs) as Heff.
  destruct (invoke ep fs) as [[[]|e] fs']; simpl.
  - destruct Heff as (task & Hq & _ & Hcase).
    assert (Hold : Forall (fun earlier =>
                (forall d, taskDeferred task = Some d -> taskDeferred earlier <> Some d)
                /\ (forall o, taskObserver task = Some o -> taskObserver earlier <> Some o))
             (_queue fs)).
    { unfold wellFormed in Hwf. eapply Forall_impl; [exact Hwf|].
      intros earlier [Hd Ho]. simpl in Hd, Ho.
      destruct Hcase as [(Htd & Hto & _)|(Hto & Htd & _)]; rewrite Htd, Hto.
      - split; [|discriminate]. intros d [= <-] Hearlier.
        specialize (Hd _ Hearlier). lia.
      - split; [discriminate|]. intros o [= <-] Hearlier.
        specialize (Ho _ Hearlier). lia. }
    split.
    + unfold wellFormed. rewrite Hq. apply Forall_app. split.
      * eapply Forall_impl; [exact Hwf|]. intros earlier [Hd Ho]. simpl in Hd, Ho.
        destruct Hcase as [(_ & _ & Hd' & Ho')|(_ & _ & Hd' & obs & Ho')];
          rewrite Hd', Ho'; split; intros x Hx.
        -- specialize (Hd _ Hx). lia.
        -- now apply Ho.
        -- now apply Hd.
        -- specialize (Ho _ Hx). rewrite length_app. simpl. lia.
      * apply Forall_singleton.
        destruct Hcase as [(Htd & Hto & Hd' & Ho')|(Hto & Htd & Hd' & obs & Ho')];
          rewrite Htd, Hto, Hd', Ho'; split; intros x [= <-];
          rewrite ?length_app; simpl; lia.
    + intros task' Hq'. rewrite Hq in Hq'. apply app_inj_tail in Hq' as [_ ->].
      exact Hold.
  - destruct Heff as (Hq & _ & Hd & Ho). split.
    + unfold wellFormed. now rewrite Hq, Hd, Ho.
    + intros task Hq'. rewrite Hq in Hq'.
      apply (f_equal length) in Hq'. rewrite length_app in Hq'. simpl in Hq'. lia.
Qed.

Lemma entry_point_keeps_well_formed_witness :
  wellFormed erosListening
  /\ wellFormed (snd (invoke (api := plainApi) (CallDeleteDoc erosRef) erosListening))
  /\ _queue (snd (invoke (api := plainApi) (CallDeleteDoc erosRef) erosListening))
     = [eventManagerListen erosListener;
        syncEngineWrite [DeleteMutation ["rooms"; "eros"] PreconditionNone] 0].
Proof.
  assert (Hwf : wellFormed erosListening).
  { unfold wellFormed. simpl. apply Forall_singleton. split.
    - intros d Hd. discriminate Hd.
    - intros o [= <-]. simpl. lia. }
  split; [exact Hwf|].
  split; [|reflexivity].
  exact (proj1 (entry_point_keeps_well_formed
                  (api := plainApi) (CallDeleteDoc erosRef) erosListening Hwf)).
Defined.

(** ** The call shapes of [onSnapshot] *)

(** X9: an observer object and its callbacks given one by one are the same
    call: [onSnapshot(ref, { next, error, complete })] does what
    [onSnapshot(ref, next, error, complete)] does, and so do the two
    shapes after an options object; a callback the object lacks stands for
    [undefined]. *)
Theorem onSnapshot_observer_object_is_positional target options o fs :
  isPartialObserver (ArgObject o) = true ->
  isPartialObserver (ArgObject options) = false ->
  onSnapshot target [ArgObject o] fs
  = onSnapshot target
      [bind_method (JsObject.next o); bind_method (JsObject.error o);
       bind_method (JsObject.complete o)] fs
  /\ onSnapshot target [ArgObject options; ArgObject o] fs
     = onSnapshot target
         [ArgObject options; bind_method (JsObject.next o);
          bind_method (JsObject.error o); bind_method (JsObject.complete o)] fs.
Proof.
  intros Hobs Hopt.
  destruct options as [flag [n'|] [e'|] [c'|]]; try discriminate Hopt.
  destruct o as [imc [n|] [e|] [c|]]; try discriminate Hobs;
    split; reflexivity.
Qed.

Lemma onSnapshot_observer_object_is_positional_witness :
  isPartialObserver (ArgObject (JsObject.mk None (Some 7%nat) None (Some 9%nat))) = true
  /\ isPartialObserver (ArgObject (JsObject.mk (Some true) None None None)) = false
  /\ onSnapshot (OnDocument erosRef)
       [ArgObject (JsObject.mk None (Some 7%nat) None (Some 9%nat))] liveClient
     = onSnapshot (OnDocument erosRef)
         [ArgFunction 7%nat; ArgUndefined; ArgFunction 9%nat] liveClient.
Proof.
  split; [reflexivity|]. split; [reflexivity|].
  exact (proj1 (onSnapshot_observer_object_is_positional
                  (OnDocument erosRef)
                  (JsObject.mk (Some true) None None None)
                  (JsObject.mk None (Some 7%nat) None (Some 9%nat))
                  liveClient eq_refl eq_refl)).
Defined.

Lemma arg_get_cons_S a rest i : arg_get (a :: rest) (S i) = arg_get rest i.
Proof. reflexivity. Qed.

Lemma arg_set_cons_S a rest i v : arg_set (a :: rest) (S i) v = a :: arg_set rest i v.
Proof.
  unfold arg_set. simpl length.
  destruct (decide (i < length rest)%nat) as [Hlt|Hge].
  - rewrite decide_True by lia. reflexivity.
  - rewrite decide_False by lia. reflexivity.
Qed.

(** On a client in use, for a target it accepts, [onSnapshot] allocates the
    observer, enqueues the registration of the listener and returns the
    function that mutes the observer and enqueues the de-registration of
    the same listener. *)
Lemma onSnapshot_live target args fs :
  _terminated fs = false ->
  targetAccepted target ->
  onSnapshot target args fs
  = (Return (bind (mute (length (_observers fs)))
                  (fun _ => enqueueAndForget
                              (eventManagerUnlisten (registeredListener target args fs)))),
     set_queue (_queue fs ++ [eventManagerListen (registeredListener target args fs)])
       (set_observers
          (_observers fs ++ [AsyncObserver.mk (registeredObserver target args) false]) fs)).
Proof.
  intros Ht Hacc.
  unfold onSnapshot, registeredListener, registeredObserver, selectOptions, spreadObserver.
  destruct (match arg_get args 0 with ArgObject o => _ | _ => _ end) as [options currArg].
  cbn [fst snd].
  destruct target as [ref|q]; simpl in Hacc.
  - unfold bind at 1. unfold ret at 1. live Ht. reflexivity.
  - unfold bind at 1. unfold bind at 1. unfold lift. rewrite Hacc.
    unfold ret at 1. live Ht. reflexivity.
Qed.

Lemma selectOptions_given options rest :
  isPartialObserver (ArgObject options) = false ->
  selectOptions (ArgObject options :: rest) = (options, 1%nat).
Proof.
  intros Hopt. unfold selectOptions.
  change (arg_get (ArgObject options :: rest) 0) with (ArgObject options).
  cbv iota. now rewrite Hopt.
Qed.

Lemma selectOptions_default args :
  suppliesOptions args = false ->
  selectOptions args = (JsObject.mk (Some false) None None None, 0%nat).
Proof.
  unfold suppliesOptions, selectOptions. intros Hno.
  destruct (arg_get args 0) as [|f|o]; try reflexivity.
  cbn [typeof_object andb] in Hno. now rewrite Hno.
Qed.

Lemma spreadObserver_shift a rest k :
  arg_get (spreadObserver (a :: rest) 1) (S k) = arg_get (spreadObserver rest 0) k.
Proof.
  unfold spreadObserver. rewrite arg_get_cons_S.
  destruct (arg_get rest 0) as [|f|o]; try reflexivity.
  destruct (isPartialObserver (ArgObject o)); [|reflexivity].
  cbn [Nat.add]. now rewrite !arg_set_cons_S.
Qed.

(** X10: an options object is consumed before the callbacks are read:
    [onSnapshot(ref, options, ...rest)] registers the observer that
    [onSnapshot(ref, ...rest)] registers, on the same query, and differs
    only in the flag of the listener, which is the options'
    [includeMetadataChanges] as it is (no flag when the object has none)
    instead of [false]. *)
Theorem onSnapshot_options_are_consumed target options rest fs :
  isPartialObserver (ArgObject options) = false ->
  suppliesOptions rest = false ->
  _terminated fs = false ->
  targetAccepted target ->
  exists u1 fs1 u2 fs2 l1 l2,
    onSnapshot target (ArgObject options :: rest) fs = (Return u1, fs1)
    /\ onSnapshot target rest fs = (Return u2, fs2)
    /\ _queue fs1 = _queue fs ++ [eventManagerListen l1]
    /\ _queue fs2 = _queue fs ++ [eventManagerListen l2]
    /\ QueryListener.options l1
       = ListenOptions.mk (JsObject.includeMetadataChanges options)
    /\ QueryListener.options l2 = ListenOptions.mk (Some false)
    /\ QueryListener.query l1 = QueryListener.query l2
    /\ QueryListener.observer l1 = QueryListener.observer l2
    /\ _observers fs1 = _observers fs2.
Proof.
  intros Hopt Hrest Ht Hacc.
  rewrite !onSnapshot_live by assumption.
  do 6 eexists. split; [reflexivity|]. split; [reflexivity|].
  split; [reflexivity|]. split; [reflexivity|].
  unfold registeredListener, registeredObserver.
  rewrite (selectOptions_given _ _ Hopt), (selectOptions_default _ Hrest).
  cbn [fst snd QueryListener.options QueryListener.query QueryListener.observer].
  repeat (split; [reflexivity|]).
  simpl _observers. f_equal. f_equal. f_equal.
  destruct target as [ref|q]; unfold observerFor; cbn [Nat.add];
    now rewrite !spreadObserver_shift.
Qed.

Lemma onSnapshot_options_are_consumed_witness :
  isPartialObserver (ArgObject (JsObject.mk None None None None)) = false
  /\ suppliesOptions [ArgFunction 7%nat] = false
  /\ _terminated liveClient = false
  /\ targetAccepted (OnDocument erosRef)
  /\ exists u1 fs1 u2 fs2 l1 l2,
      onSnapshot (OnDocument erosRef)
        [ArgObject (JsObject.mk None None None None); ArgFunction 7%nat] liveClient
      = (Return u1, fs1)
      /\ onSnapshot (OnDocument erosRef) [ArgFunction 7%nat] liveClient = (Return u2, fs2)
      /\ _queue fs1 = _queue liveClient ++ [eventManagerListen l1]
      /\ _queue fs2 = _queue liveClient ++ [eventManagerListen l2]
      /\ QueryListener.options l1 = ListenOptions.mk None
      /\ QueryListener.options l2 = ListenOptions.mk (Some false)
      /\ QueryListener.query l1 = QueryListener.query l2
      /\ QueryListener.observer l1 = QueryListener.observer l2
      /\ _observers fs1 = _observers fs2.
Proof.
  split; [reflexivity|]. split; [reflexivity|]. split; [reflexivity|]. split; [exact I|].
  apply (onSnapshot_options_are_consumed
           (OnDocument erosRef) (JsObject.mk None None None None) [ArgFunction 7%nat]
           liveClient);
    [reflexivity | reflexivity | reflexivity | exact I].
Defined.

Lemma registration_returns_cases g fs :
  (exists unsubscribe fs', register g fs = (Return unsubscribe, fs'))
  <-> _terminated fs = false
      /\ match g with
         | RegisterSnapshot target _ => targetAccepted target
         | RegisterSnapshotsInSync _ => True
         end.
Proof.
  split.
  - intros (u & fs' & Hreg). destruct g as [target args|arg]; simpl in Hreg.
    + destruct (_terminated fs) eqn:Ht.
      * destruct (onSnapshot_terminated target args fs Ht) as (e & He & _). congruence.
      * split; [reflexivity|].
        destruct target as [ref|q]; [exact I|]. simpl.
        destruct (validate_cases (Query._query q)) as [Hv|[msg Hv]]; [exact Hv|].
        unfold onSnapshot in Hreg.
        destruct (match arg_get args 0 with ArgObject o => _ | _ => _ end)
          as [options currArg].
        unfold bind at 1 in Hreg. unfold bind at 1 in Hreg. unfold lift in Hreg.
        rewrite Hv in Hreg. discriminate.
    + unfold onSnapshotsInSync, bind at 1, _verifyNotTerminated in Hreg.
      destruct (_terminated fs); [discriminate|]. now split.
  - intros [Ht Hacc]. destruct g as [target args|arg]; simpl.
    + rewrite onSnapshot_live by assumption. eauto.
    + unfold onSnapshotsInSync. live Ht. eauto.
Qed.

(** X11: a registration returns exactly when the client is not terminated
    and, for [onSnapshot] on a query, the query passes the order
    validation.  Nothing else makes it fail: whatever the callbacks are,
    and even with none at all, the listener is registered, with one
    observer allocated, unmuted. *)
Theorem registration_returns_iff g fs :
  ((exists unsubscribe fs', register g fs = (Return unsubscribe, fs'))
   <-> _terminated fs = false
       /\ match g with
          | RegisterSnapshot target _ => targetAccepted target
          | RegisterSnapshotsInSync _ => True
          end)
  /\ forall unsubscribe fs',
      register g fs = (Return unsubscribe, fs') ->
      exists obs, _observers fs' = _observers fs ++ [AsyncObserver.mk obs false].
Proof.
  split; [apply registration_returns_cases|].
  intros u fs' Hreg.
  destruct (register_returns g fs u fs' Hreg) as (obs & task & Hobs & _).
  now exists obs.
Qed.

(** X12: the function a registration returns hands to the queue, as its
    only task, the de-registration of the very listener (or in-sync
    observer) that the registration enqueued: called on a client in use
    it does not throw and enqueues exactly that task; called on a client
    torn down in the meantime it is refused by the queue, throws the
    terminated error and enqueues nothing. *)
Theorem unsubscribe_takes_back_its_registration g fs unsubscribe fs1 :
  register g fs = (Return unsubscribe, fs1) ->
  exists registration deregistration,
    _queue fs1 = _queue fs ++ [registration]
    /\ takesBack registration deregistration
    /\ forall later,
        (_terminated later = false ->
         fst (unsubscribe later) = Return tt
         /\ _queue (snd (unsubscribe later)) = _queue later ++ [deregistration])
        /\ (_terminated later = true ->
            fst (unsubscribe later) = Throw terminatedError
            /\ _queue (snd (unsubscribe later)) = _queue later).
Proof.
  assert (Hcancel : forall o task later,
             (_terminated later = false ->
              fst (bind (mute o) (fun _ => enqueueAndForget task) later) = Return tt
              /\ _queue (snd (bind (mute o) (fun _ => enqueueAndForget task) later))
                 = _queue later ++ [task])
             /\ (_terminated later = true ->
                 fst (bind (mute o) (fun _ => enqueueAndForget task) later)
                 = Throw terminatedError
                 /\ _queue (snd (bind (mute o) (fun _ => enqueueAndForget task) later))
                    = _queue later)).
  { intros o task later. unfold bind, mute, enqueueAndForget. simpl.
    split; intros ->; split; reflexivity. }
  destruct g as [target args|arg]; simpl.
  - intros Hreg.
    assert (Hok : _terminated fs = false /\ targetAccepted target).
    { apply (registration_returns_cases (RegisterSnapshot target args) fs). eauto. }
    destruct Hok as [Ht Hacc].
    rewrite onSnapshot_live in Hreg by assumption.
    injection Hreg as <- <-.
    exists (eventManagerListen (registeredListener target args fs)),
           (eventManagerUnlisten (registeredListener target args fs)).
    split; [reflexivity|]. split; [exact eq_refl|].
    intros later. apply Hcancel.
  - unfold onSnapshotsInSync.
    destruct (_terminated fs) eqn:Ht; [now rewrite verify_terminated|].
    live Ht.
    intros Hreg. injection Hreg as <- <-.
    exists (addSnapshotsInSyncListener (length (_observers fs))),
           (removeSnapshotsInSyncListener (length (_observers fs))).
    split; [reflexivity|]. split; [exact eq_refl|].
    intros later. apply Hcancel.
Qed.

Lemma unsubscribe_takes_back_its_registration_witness :
  register (RegisterSnapshot (OnDocument erosRef) [ArgFunction 7%nat]) liveClient
  = (Return erosUnsubscribe, erosListening)
  /\ exists registration deregistration,
      _queue erosListening = _queue liveClient ++ [registration]
      /\ takesBack registration deregistration
      /\ forall later,
          (_terminated later = false ->
           fst (erosUnsubscribe later) = Return tt
           /\ _queue (snd (erosUnsubscribe later)) = _queue later ++ [deregistration])
          /\ (_terminated later = true ->
              fst (erosUnsubscribe later) = Throw terminatedError
              /\ _queue (snd (erosUnsubscribe later)) = _queue later).
Proof.
  split; [reflexivity|].
  apply (unsubscribe_takes_back_its_registration
           (RegisterSnapshot (OnDocument erosRef) [ArgFunction 7%nat])
           liveClient erosUnsubscribe erosListening).
  reflexivity.
Defined.

(** ** Reading a document *)

(** X13: on a client in use, [getDoc] and [getDocFromServer] return the
    same promise and differ only in the source of the task they enqueue.
    The promise is pending while its cell is, and passes a rejection on
    unchanged.  A snapshot with more than one document rejects it with the
    failure of the assertion; an empty snapshot resolves it to a missing
    document; a snapshot with one document resolves it to a document that
    exists exactly when that document has the referenced key. *)
Theorem getDoc_promise ref fs :
  _terminated fs = false ->
  exists p fs1 fs2,
    getDoc ref fs = (Return p, fs1)
    /\ getDocFromServer ref fs = (Return p, fs2)
    /\ _queue fs1
       = _queue fs
           ++ [readDocumentViaSnapshotListener (DocumentReference._key ref) SourceDefault
                 (_deferreds fs)]
    /\ _queue fs2
       = _queue fs
           ++ [readDocumentViaSnapshotListener (DocumentReference._key ref) SourceServer
                 (_deferreds fs)]
    /\ Promise.deferred p = _deferreds fs
    /\ Promise.state p Pending = Pending
    /\ (forall e, Promise.state p (Rejected e) = Rejected e)
    /\ (forall snapshot,
           (1 < size (ViewSnapshot.docs snapshot))%nat ->
           exists e,
             Promise.state p (Resolved snapshot) = Rejected e
             /\ is_assertion_failure e = true)
    /\ (forall fromCache hasPendingWrites,
           exists s,
             Promise.state p (Resolved (ViewSnapshot.mk ∅ fromCache hasPendingWrites))
             = Resolved s
             /\ DocumentSnapshot.exists_ s = false)
    /\ (forall key document fromCache hasPendingWrites,
           exists s,
             Promise.state p
               (Resolved (ViewSnapshot.mk {[key := document]} fromCache hasPendingWrites))
             = Resolved s
             /\ DocumentSnapshot.exists_ s
                = bool_decide (key = DocumentReference._key ref)).
Proof.
  intros Ht. unfold getDoc, getDocFromServer. live Ht.
  do 3 eexists. split; [reflexivity|]. split; [reflexivity|].
  split; [reflexivity|]. split; [reflexivity|]. split; [reflexivity|].
  split; [reflexivity|]. split; [reflexivity|].
  split; [|split].
  - intros snapshot Hmany. simpl. unfold convertToDocSnapshot, debugAssert.
    rewrite bool_decide_eq_false_2 by lia. simpl. eauto.
  - intros fromCache hasPendingWrites. simpl. unfold convertToDocSnapshot, debugAssert.
    simpl ViewSnapshot.docs. rewrite map_size_empty.
    rewrite bool_decide_eq_true_2 by lia. simpl.
    eexists. split; [reflexivity|].
    unfold DocumentSnapshot.exists_. simpl. rewrite lookup_empty.
    apply bool_decide_eq_false_2. intros [x Hx]. discriminate.
  - intros key document fromCache hasPendingWrites. simpl.
    unfold convertToDocSnapshot, debugAssert.
    simpl ViewSnapshot.docs. rewrite map_size_singleton.
    rewrite bool_decide_eq_true_2 by lia. simpl.
    eexists. split; [reflexivity|].
    unfold DocumentSnapshot.exists_. simpl.
    destruct (decide (key = DocumentReference._key ref)) as [->|Hne].
    + rewrite lookup_singleton_eq.
      rewrite (bool_decide_eq_true_2 (_ = _)) by done.
      apply bool_decide_eq_true_2. eauto.
    + rewrite lookup_singleton_ne by done.
      rewrite (bool_decide_eq_false_2 (key = _)) by done.
      apply bool_decide_eq_false_2. intros [x Hx]. discriminate.
Qed.

Lemma getDoc_promise_witness :
  _terminated liveClient = false
  /\ exists p fs1,
      getDoc erosRef liveClient = (Return p, fs1)
      /\ exists s,
          Promise.state p
            (Resolved (ViewSnapshot.mk
                         {[ ["rooms"; "gaia"] := Document.mk ["rooms"; "gaia"] JNull false ]}
                         false false))
          = Resolved s
          /\ DocumentSnapshot.exists_ s = false.
Proof.
  split; [reflexivity|].
  destruct (getDoc_promise erosRef liveClient eq_refl)
    as (p & fs1 & fs2 & Hget & _ & _ & _ & _ & _ & _ & _ & _ & Hone).
  exists p, fs1. split; [exact Hget|].
  destruct (Hone ["rooms"; "gaia"] (Document.mk ["rooms"; "gaia"] JNull false) false false)
    as (s & Hs & Hex).
  exists s. split; [exact Hs|]. exact Hex.
Defined.

(** X15: when the converter or the parser rejects the data, [setDoc] throws
    that very error and leaves the client as it was: no cell is created
    and nothing is enqueued. *)
Theorem setDoc_rejected_data `{api : UserDataApi} ref data options fs e :
  _terminated fs = false ->
  applyFirestoreDataConverter (DocumentReference._converter ref) data options = Throw e
  \/ (exists v,
        applyFirestoreDataConverter (DocumentReference._converter ref) data options
        = Return v
        /\ parseSetData (newUserDataReader fs) "setDoc" (DocumentReference._key ref) v
             (bool_decide (DocumentReference._converter ref <> None)) options
           = Throw e) ->
  setDoc ref data options fs = (Throw e, fs).
Proof.
  intros Ht [Hc|(v & Hc & Hp)]; unfold setDoc; rewrite verify_live by done.
  - now rewrite (bind_lift_throw _ _ _ _ Hc).
  - rewrite (bind_lift_return _ _ _ _ Hc).
    unfold bind at 1. unfold firestoreOf.
    now rewrite (bind_lift_throw _ _ _ _ Hp).
Qed.

Lemma setDoc_rejected_data_witness :
  _terminated liveClient = false
  /\ setDoc (api := strictApi) erosRef JUndefined None liveClient
     = (Throw (FirestoreError ValidationError "Data must be an object, but it was: undefined"),
        liveClient).
Proof.
  split; [reflexivity|].
  apply (setDoc_rejected_data (api := strictApi) erosRef JUndefined None liveClient);
    [reflexivity|].
  right. exists JUndefined. split; reflexivity.
Defined.

(** X16: in its object form [updateDoc] ignores whatever follows the
    object: when the parser accepts the update data, the call submits the
    parsed update with precondition must-exist, whatever the value and the
    trailing arguments are (an odd number of them included). *)
Theorem updateDoc_object_form_ignores_the_rest
    `{api : UserDataApi} ref d value more fs parsed :
  _terminated fs = false ->
  parseUpdateData (newUserDataReader fs) "updateDoc" (DocumentReference._key ref) d
  = Return parsed ->
  updateDoc ref (UpdateDataObject d) value more fs
  = updateDoc ref (UpdateDataObject d) JUndefined [] fs
  /\ exists p fs',
      updateDoc ref (UpdateDataObject d) value more fs = (Return p, fs')
      /\ _queue fs'
         = _queue fs
             ++ [syncEngineWrite
                   (ParsedUpdateData.toMutations parsed (DocumentReference._key ref)
                      (PreconditionExists true))
                   (_deferreds fs)].
Proof.
  intros Ht Hp. split; [reflexivity|].
  unfold updateDoc. rewrite verify_live by done.
  unfold bind at 1. unfold firestoreOf.
  rewrite (bind_lift_return _ _ _ _ Hp), executeWrite_eq by exact Ht.
  do 2 eexists. split; reflexivity.
Qed.

Lemma updateDoc_object_form_ignores_the_rest_witness :
  _terminated liveClient = false
  /\ exists p fs',
      updateDoc (api := plainApi) erosRef (UpdateDataObject [("name", JStr "Eros")])
                (JNum 1) [JStr "b"] liveClient
      = (Return p, fs')
      /\ _queue fs'
         = [syncEngineWrite
              [PatchMutation ["rooms"; "eros"] (FieldName "name") (JStr "Eros")
                 (PreconditionExists true)] 0].
Proof.
  split; [reflexivity|].
  exact (proj2 (updateDoc_object_form_ignores_the_rest
                  (api := plainApi) erosRef [("name", JStr "Eros")] (JNum 1) [JStr "b"]
                  liveClient
                  (ParsedUpdateData.mk [(FieldName "name", JStr "Eros")])
                  eq_refl eq_refl)).
Defined.
